(** * The bootstrap connection supervisor of [backend/src/config/db.ts]

    [connectDB] opens the MongoDB connection at process start.  A failed
    attempt is retried after a fixed delay while the [retries] counter is
    positive; a failure met with no retry left stops the process.

    The embedding keeps the shape of the TypeScript source: an effect monad
    with exceptions ([try]/[catch]) and process termination, the calls to
    [mongoose.connect], [console.log], [console.error], [setTimeout] and
    [process.exit] as primitive actions that append to an observable trace,
    and [connectDB] itself as a recursive function on the [retries] counter.

    [retries] is a JavaScript number, a binary64 value.  [connectDB_js] is
    [connectDB] on numbers, with the arithmetic of lines 16, 17 and 19 done
    in binary64 and the run cut after a given number of passes, since the
    recursion need not end (the counter may be infinite, or so large that
    [retries - 1] rounds back to [retries]).  [connectDB] is the same
    function on integer counters, with exact arithmetic; the two agree on
    the integers up to 2^53 ([connectDB_js_integer]), where the arithmetic
    of numbers is exact and a number is rendered by its decimal digits.
    The data store is an oracle giving the outcome of each call of
    [mongoose.connect] in the order of the calls. *)

From Equations Require Import Equations.
From Stdlib Require Import ZArith List String Bool Lia.
From Stdlib Require Import DecimalString DecimalPos DecimalZ SpecFloat.
Import ListNotations.

Local Open Scope Z_scope.

(** ** Values *)

(** The value with which a rejected [mongoose.connect] promise rejects. *)
Inductive js_error : Type :=
| MongooseError (message : string).

(** Outcome of one call of [mongoose.connect]: the promise resolves or
    rejects. *)
Inductive connect_result : Type :=
| Established
| Refused (reason : js_error).

(** [envConfig.mongo] of [./envConfig], a module outside this file: only the
    two fields read by [connectDB]. *)
Record MongoConfig : Type := mkMongoConfig {
  uri : string;
  dbName : string
}.

Record EnvConfig : Type := mkEnvConfig {
  mongo : MongoConfig
}.

(** ** Observable events *)

Inductive event : Type :=
| MongooseConnect (target : string) (database : string)
| ConsoleLog (line : string)
| ConsoleError (line : string) (detail : option js_error)
| SetTimeout (ms : Z)
| ProcessExit (code : Z).

(** The process as [connectDB] sees it: how many connection calls were
    made so far, and everything done so far in program order. *)
Record world : Type := mkWorld {
  calls : nat;
  trace : list event
}.

Definition boot : world := {| calls := 0; trace := [] |}.

Definition record (e : event) (w : world) : world :=
  {| calls := calls w; trace := trace w ++ [e] |}.

(** ** The effect monad *)

(** How a computation ends: normally, by a thrown value (a rejected promise
    once awaited), or with the process gone. *)
Inductive completion (A : Type) : Type :=
| Normal (a : A)
| Throw (e : js_error)
| Halt (code : Z).

Arguments Normal {A} a.
Arguments Throw {A} e.
Arguments Halt {A} code.

Definition IO (A : Type) : Type := world -> completion A * world.

Definition ret {A} (a : A) : IO A := fun w => (Normal a, w).

Definition bind {A B} (m : IO A) (k : A -> IO B) : IO B := fun w =>
  match m w with
  | (Normal a, w') => k a w'
  | (Throw e, w') => (Throw e, w')
  | (Halt c, w') => (Halt c, w')
  end.

(** [try { body } catch (error) { handler }]: only a thrown value reaches the
    handler; a terminated process runs nothing more. *)
Definition try_catch {A} (body : IO A) (handler : js_error -> IO A) : IO A :=
  fun w =>
    match body w with
    | (Normal a, w') => (Normal a, w')
    | (Throw e, w') => handler e w'
    | (Halt c, w') => (Halt c, w')
    end.

Declare Scope io_scope.
Delimit Scope io_scope with io.
Notation "m ;; k" := (bind m (fun _ => k))
  (at level 61, right associativity) : io_scope.

(** ** Primitive actions *)

Definition console_log (line : string) : IO unit := fun w =>
  (Normal tt, record (ConsoleLog line) w).

Definition console_error (line : string) (detail : option js_error) : IO unit :=
  fun w => (Normal tt, record (ConsoleError line detail) w).

(** [await new Promise(resolve => setTimeout(resolve, ms))] *)
Definition setTimeout (ms : Z) : IO unit := fun w =>
  (Normal tt, record (SetTimeout ms) w).

Definition process_exit (code : Z) : IO unit := fun w =>
  (Halt code, record (ProcessExit code) w).

(** Decimal digits of an integer, with a minus sign below zero: what a
    template literal shows of an integer of magnitude below 2^53. *)
Definition template_number (z : Z) : string :=
  NilZero.string_of_int (Z.to_int z).

(** ** [db.ts] *)

Definition MAX_RETRIES : Z := 5.
Definition RETRY_DELAY : Z := 5000.

(** Line 17 on an integer counter. *)
Definition retrying_line (retries : Z) : string :=
  ("Retrying connection... (" ++ template_number (MAX_RETRIES - retries + 1)
     ++ "/" ++ template_number MAX_RETRIES ++ ")")%string.

Section Supervisor.

Variable envConfig : EnvConfig.

(** The data store, as the outcome of the n-th call of [mongoose.connect]
    made by the process (counted from 0). *)
Variable connector : nat -> connect_result.

(** [await mongoose.connect(uri, { dbName })]: a rejection surfaces as a
    thrown value at the [await]. *)
Definition mongoose_connect (target database : string) : IO unit := fun w =>
  let w' := {| calls := S (calls w);
               trace := trace w ++ [MongooseConnect target database] |} in
  match connector (calls w) with
  | Established => (Normal tt, w')
  | Refused e => (Throw e, w')
  end.

(* The unfolding equation of [connectDB] is proved below by hand, without
   function extensionality. *)
#[local] Unset Equations With Funext.
Set Warnings "-solve_obligation_error".

(** [connectDB(retries)] on an integer counter, with exact arithmetic: the
    view of [connectDB_js] on the integers up to 2^53.  The recursive call
    of line 19 is on [retries - 1] under the guard [retries > 0], hence the
    measure. *)
Equations? connectDB (retries : Z) : IO unit by wf (Z.to_nat retries) lt :=
connectDB retries :=
  try_catch
    (mongoose_connect (uri (mongo envConfig)) (dbName (mongo envConfig)) ;;
     console_log "Connected to MongoDB")%io
    (fun error =>
       console_error "MongoDB connection error:" (Some error) ;;
       match Z_gt_dec retries 0 with
       | left _ =>
           console_log (retrying_line retries) ;;
           setTimeout RETRY_DELAY ;;
           connectDB (retries - 1)
       | right _ =>
           console_error "Failed to connect to MongoDB after maximum retries" None ;;
           process_exit 1
       end)%io.
Proof. lia. Qed.
Next Obligation.
  unfold connectDB. rewrite FixWf_unfold.
  - reflexivity.
  - intros x f g Hfg. unfold connectDB_functional.
    destruct (Z_gt_dec x 0) as [Hpos | Hneg]; [rewrite Hfg |]; reflexivity.
Defined.
Set Warnings "solve_obligation_error".

(** [connectDB()]: the parameter default [retries = MAX_RETRIES]. *)
Definition connectDB_default : IO unit := connectDB MAX_RETRIES.

(** *** What one pass through the body leaves in the trace *)

Definition attempt : event :=
  MongooseConnect (uri (mongo envConfig)) (dbName (mongo envConfig)).

(** Lines 9-12: the attempt succeeds. *)
Definition connected_round : list event :=
  [attempt; ConsoleLog "Connected to MongoDB"].

(** Lines 9, 14, 17, 18: the attempt fails with [retries > 0]. *)
Definition retry_round (retries : Z) (e : js_error) : list event :=
  [attempt;
   ConsoleError "MongoDB connection error:" (Some e);
   ConsoleLog (retrying_line retries);
   SetTimeout RETRY_DELAY].

(** Lines 9, 14, 22, 23: the attempt fails with no retry left. *)
Definition fatal_round (e : js_error) : list event :=
  [attempt;
   ConsoleError "MongoDB connection error:" (Some e);
   ConsoleError "Failed to connect to MongoDB after maximum retries" None;
   ProcessExit 1].

(** [j] consecutive failed attempts starting at call [i] with counter
    [retries], each followed by a retry. *)
Fixpoint retry_rounds (j : nat) (retries : Z) (err : nat -> js_error) (i : nat)
  : list event :=
  match j with
  | O => []
  | S j' => retry_round retries (err i) ++ retry_rounds j' (retries - 1) err (S i)
  end.

(** The runs of [connectDB retries] whose first attempt is call [i], as a
    derivation: the trace they add and how they end. *)
Inductive unfolds : Z -> nat -> list event -> completion unit -> Prop :=
| unfolds_connected retries i :
    connector i = Established ->
    unfolds retries i connected_round (Normal tt)
| unfolds_exhausted retries i e :
    connector i = Refused e ->
    retries <= 0 ->
    unfolds retries i (fatal_round e) (Halt 1)
| unfolds_retry retries i e t c :
    connector i = Refused e ->
    0 < retries ->
    unfolds (retries - 1) (S i) t c ->
    unfolds retries i (retry_round retries e ++ t) c.

End Supervisor.

(** ** Observers on traces *)

Definition is_attempt (e : event) : bool :=
  match e with MongooseConnect _ _ => true | _ => false end.

(** Number of connection attempts. *)
Definition attempts (t : list event) : nat := List.length (filter is_attempt t).

(** Requested delay durations, in order. *)
Definition delays (t : list event) : list Z :=
  flat_map (fun e => match e with SetTimeout ms => [ms] | _ => [] end) t.

(** Lines written by [console.log], in order. *)
Definition stdout (t : list event) : list string :=
  flat_map (fun e => match e with ConsoleLog l => [l] | _ => [] end) t.

(** Lines written by [console.error], in order. *)
Definition stderr (t : list event) : list string :=
  flat_map (fun e => match e with ConsoleError l _ => [l] | _ => [] end) t.

(** Exit codes passed to [process.exit]. *)
Definition exits (t : list event) : list Z :=
  flat_map (fun e => match e with ProcessExit c => [c] | _ => [] end) t.

(** Delays requested before the next attempt starts. *)
Fixpoint quiet (t : list event) : list Z :=
  match t with
  | [] => []
  | MongooseConnect _ _ :: _ => []
  | SetTimeout ms :: t' => ms :: quiet t'
  | _ :: t' => quiet t'
  end.

(** For each attempt, in order, the delays requested between it and the
    next attempt (or the end of the trace). *)
Fixpoint pauses (t : list event) : list (list Z) :=
  match t with
  | [] => []
  | MongooseConnect _ _ :: t' => quiet t' :: pauses t'
  | _ :: t' => pauses t'
  end.

(** The world after the events [t] were added to [w]. *)
Definition after (w : world) (t : list event) : world :=
  {| calls := calls w + attempts t; trace := trace w ++ t |}.

(** ** Sample environments *)

Definition sample_env : EnvConfig :=
  mkEnvConfig (mkMongoConfig "mongodb://mongo:27017/app" "app").

Definition econnrefused : js_error := MongooseError "connect ECONNREFUSED".

(** A data store that is never reachable. *)
Definition unreachable : nat -> connect_result := fun _ => Refused econnrefused.

(** A data store that becomes reachable at the [k]-th attempt (1-indexed). *)
Definition reachable_at (k : nat) : nat -> connect_result := fun i =>
  if (S i <? k)%nat then Refused econnrefused else Established.

(** The reason of a refusal (the empty error for a success). *)
Definition reason_of (r : connect_result) : js_error :=
  match r with
  | Refused e => e
  | Established => MongooseError ""
  end.


(** Sum of the requested delays, in milliseconds. *)
Definition total_delay (t : list event) : Z := fold_right Z.add 0 (delays t).

(** ** JavaScript numbers

    [retries] is a JavaScript number, an IEEE 754 binary64 value.  Numbers
    are the floating-point values of the standard library's specification
    of binary64 arithmetic, rounding to nearest with ties to even. *)

Definition number : Type := spec_float.

Definition js_prec : Z := 53.
Definition js_emax : Z := 1024.

(** The number written as the integer literal [z]. *)
Definition of_Z (z : Z) : number := binary_normalize js_prec js_emax z 0 false.

Definition js_zero : number := of_Z 0.
Definition js_one : number := of_Z 1.
Definition MAX_RETRIES_number : number := of_Z MAX_RETRIES.
Definition js_infinity : number := S754_infinity false.

(** [x - y], [x + y], [x > y] and [x <= y] on numbers. *)
Definition js_sub (x y : number) : number := SFsub js_prec js_emax x y.
Definition js_add (x y : number) : number := SFadd js_prec js_emax x y.
Definition js_gt (x y : number) : bool := SFltb y x.
Definition js_le (x y : number) : bool := SFleb x y.

(** The integer a number stands for, when it is one. *)
Definition to_Z (x : number) : option Z :=
  match x with
  | S754_zero _ => Some 0
  | S754_finite s m e =>
      match e with
      | Z0 => Some (cond_Zopp s (Zpos m))
      | Zpos _ => Some (cond_Zopp s (Zpos m * 2 ^ e))
      | Zneg k =>
          if Zpos m mod 2 ^ Zpos k =? 0
          then Some (cond_Zopp s (Zpos m / 2 ^ Zpos k))
          else None
      end
  | _ => None
  end.

(** What is used of the conversion of a number to a string inside a
    template literal: an integer of magnitude below 2^53 is rendered by its
    decimal digits. *)
Definition renders_integers (toString : number -> string) : Prop :=
  forall z, - 2 ^ 53 < z < 2 ^ 53 -> toString (of_Z z) = template_number z.

(** A conversion with that property, to run examples with. *)
Definition integer_toString (x : number) : string :=
  match to_Z x with
  | Some z => template_number z
  | None => "NaN"%string
  end.

(** How the promise of an [async] function stands when the run is cut:
    [Normal None] is a promise still pending. *)
Definition settled (c : completion unit) : completion (option unit) :=
  match c with
  | Normal _ => Normal (Some tt)
  | Throw e => Throw e
  | Halt code => Halt code
  end.

(** The double of a positive integer below 2^53: its bits moved up to fill
    the 53 bits of the mantissa. *)
Definition normal_mantissa (p : positive) : positive :=
  fst (shl_align p 0 (Zpos (digits2_pos p) - 53)).

Definition normal (s : bool) (p : positive) : number :=
  S754_finite s (normal_mantissa p) (Zpos (digits2_pos p) - 53).

Definition signed (s : bool) (p : positive) : Z := cond_Zopp s (Zpos p).

(** ** [db.ts] on JavaScript numbers *)

Section SupervisorNumber.

(** The conversion applied by the template literal of line 17. *)
Variable toString : number -> string.

Variable envConfig : EnvConfig.
Variable connector : nat -> connect_result.

(** Line 17, the arithmetic done on numbers. *)
Definition retrying_line_js (retries : number) : string :=
  ("Retrying connection... ("
     ++ toString (js_add (js_sub MAX_RETRIES_number retries) js_one)
     ++ "/" ++ toString MAX_RETRIES_number ++ ")")%string.

(** [connectDB(retries)] for any number.  Nothing bounds the recursion of
    line 19 when [retries - 1] does not go down, so the run is cut after
    [fuel] passes through the body; a cut run leaves the promise pending. *)
Fixpoint connectDB_js (fuel : nat) (retries : number) : IO (option unit) :=
  match fuel with
  | O => ret None
  | S fuel' =>
      try_catch
        (mongoose_connect connector
           (uri (mongo envConfig)) (dbName (mongo envConfig)) ;;
         console_log "Connected to MongoDB" ;;
         ret (Some tt))%io
        (fun error =>
           console_error "MongoDB connection error:" (Some error) ;;
           (if js_gt retries js_zero
            then
              console_log (retrying_line_js retries) ;;
              setTimeout RETRY_DELAY ;;
              connectDB_js fuel' (js_sub retries js_one)
            else
              console_error
                "Failed to connect to MongoDB after maximum retries" None ;;
              process_exit 1 ;;
              ret (Some tt)))%io
  end.

(** [connectDB()] *)
Definition connectDB_js_default (fuel : nat) : IO (option unit) :=
  connectDB_js fuel MAX_RETRIES_number.

(** Lines 9, 14, 17, 18 on numbers. *)
Definition retry_round_js (retries : number) (e : js_error) : list event :=
  [attempt envConfig;
   ConsoleError "MongoDB connection error:" (Some e);
   ConsoleLog (retrying_line_js retries);
   SetTimeout RETRY_DELAY].

(** The counter after [j] retries. *)
Fixpoint js_countdown (j : nat) (retries : number) : number :=
  match j with
  | O => retries
  | S j' => js_countdown j' (js_sub retries js_one)
  end.

(** [j] failed attempts in a row from call [i], each one retried. *)
Fixpoint retry_rounds_js (j : nat) (retries : number) (i : nat) : list event :=
  match j with
  | O => []
  | S j' =>
      retry_round_js retries (reason_of (connector i))
      ++ retry_rounds_js j' (js_sub retries js_one) (S i)
  end.

End SupervisorNumber.

(** A trace that is empty or begins with a connection attempt. *)
Definition at_attempt (t : list event) : Prop :=
  match t with
  | [] => True
  | e :: _ => is_attempt e = true
  end.

(** A counter from which [retries - 1] gives [retries] back. *)
Definition stalled_counter : number := of_Z (2 ^ 53 + 8).

(** ** One pass through the body *)

Section Steps.

Variable envConfig : EnvConfig.
Variable connector : nat -> connect_result.

Lemma after_nil (w : world) : after w [] = w.
Proof.
  destruct w as [n t]. unfold after; cbn.
  rewrite Nat.add_0_r, app_nil_r. reflexivity.
Qed.

Lemma attempts_app (t u : list event) :
  attempts (t ++ u) = (attempts t + attempts u)%nat.
Proof. unfold attempts. rewrite filter_app, length_app. reflexivity. Qed.

Lemma after_app (w : world) (t u : list event) :
  after (after w t) u = after w (t ++ u).
Proof.
  unfold after; cbn. rewrite attempts_app, app_assoc, Nat.add_assoc.
  reflexivity.
Qed.

Ltac run_body H :=
  rewrite connectDB_equation_1;
  unfold try_catch, bind, mongoose_connect; cbn;
  rewrite H; cbn;
  unfold console_log, console_error, setTimeout, process_exit; cbn.

Ltac same_world :=
  unfold after, record, connected_round, retry_round, fatal_round; cbn;
  repeat rewrite <- app_assoc; cbn;
  repeat f_equal; lia.

Lemma connectDB_connected (retries : Z) (w : world) :
  connector (calls w) = Established ->
  connectDB envConfig connector retries w = (Normal tt, after w (connected_round envConfig)).
Proof.
  intros H. run_body H. same_world.
Qed.

Lemma connectDB_exhausted (retries : Z) (w : world) (e : js_error) :
  connector (calls w) = Refused e ->
  retries <= 0 ->
  connectDB envConfig connector retries w = (Halt 1, after w (fatal_round envConfig e)).
Proof.
  intros H Hr. run_body H.
  destruct (Z_gt_dec retries 0) as [Hpos | _]; [lia |].
  same_world.
Qed.

Lemma connectDB_retry (retries : Z) (w : world) (e : js_error) :
  connector (calls w) = Refused e ->
  0 < retries ->
  connectDB envConfig connector retries w =
  connectDB envConfig connector (retries - 1) (after w (retry_round envConfig retries e)).
Proof.
  intros H Hr. run_body H.
  destruct (Z_gt_dec retries 0) as [_ | Hneg]; [| lia].
  f_equal. same_world.
Qed.

(** Every run of [connectDB] follows a derivation of [unfolds]. *)
Lemma connectDB_unfolds (retries : Z) (w : world) :
  exists t c,
    unfolds envConfig connector retries (calls w) t c /\
    connectDB envConfig connector retries w = (c, after w t).
Proof.
  remember (Z.to_nat retries) as n eqn:Hn.
  revert retries w Hn.
  induction n as [| n IH]; intros retries w Hn;
    destruct (connector (calls w)) as [| e] eqn:Hc.
  - exists (connected_round envConfig), (Normal tt). split.
    + now constructor.
    + now apply connectDB_connected.
  - exists (fatal_round envConfig e), (Halt 1). split.
    + constructor; [assumption | lia].
    + apply connectDB_exhausted; [assumption | lia].
  - exists (connected_round envConfig), (Normal tt). split.
    + now constructor.
    + now apply connectDB_connected.
  - destruct (IH (retries - 1)
                (after w (retry_round envConfig retries e)) ltac:(lia))
      as (t & c & Hu & Hrun).
    exists (retry_round envConfig retries e ++ t), c. split.
    + apply unfolds_retry; [assumption | lia |].
      replace (S (calls w)) with
        (calls (after w (retry_round envConfig retries e)))
        by (cbn; lia).
      exact Hu.
    + rewrite (connectDB_retry retries w e Hc) by lia.
      rewrite Hrun, after_app. reflexivity.
Qed.

End Steps.

(** ** Facts that hold along every derivation *)

Section Runs.

Variable envConfig : EnvConfig.
Variable connector : nat -> connect_result.

Lemma delays_app (t u : list event) : delays (t ++ u) = delays t ++ delays u.
Proof. apply flat_map_app. Qed.

Lemma exits_app (t u : list event) : exits (t ++ u) = exits t ++ exits u.
Proof. apply flat_map_app. Qed.

Lemma stdout_app (t u : list event) : stdout (t ++ u) = stdout t ++ stdout u.
Proof. apply flat_map_app. Qed.


(** A run starts with a connection attempt. *)
Lemma unfolds_starts_with_attempt retries i t c :
  unfolds envConfig connector retries i t c ->
  exists t', t = attempt envConfig :: t'.
Proof.
  intros H. destruct H; eexists; reflexivity.
Qed.

(** A run ends by returning or by stopping the process with status 1: no
    thrown value escapes. *)
Lemma unfolds_completion retries i t c :
  unfolds envConfig connector retries i t c ->
  c = Normal tt \/ c = Halt 1.
Proof.
  induction 1; auto.
Qed.

(** A run makes at least one attempt and at most one more than the counter
    allows retries. *)
Lemma unfolds_attempts_bound retries i t c :
  unfolds envConfig connector retries i t c ->
  (1 <= attempts t <= Z.to_nat retries + 1)%nat.
Proof.
  induction 1 as [r i Hc | r i e Hc Hr | r i e t c Hc Hr Hu IH].
  - cbn. lia.
  - cbn. lia.
  - rewrite attempts_app. cbn. lia.
Qed.

(** The last attempt of a run that returns is the one that succeeded, and
    all attempts before it were refused. *)
Lemma unfolds_returns retries i t :
  unfolds envConfig connector retries i t (Normal tt) ->
  connector (i + attempts t - 1)%nat = Established /\
  (forall k, (k < attempts t - 1)%nat -> connector (i + k)%nat <> Established) /\
  exits t = [] /\
  exists t', t = t' ++ connected_round envConfig /\
             (attempts t' = attempts t - 1)%nat.
Proof.
  remember (Normal tt) as c eqn:Hc.
  induction 1 as [r i Hi | r i e Hi Hr | r i e t c' Hi Hr Hu IH].
  - cbn. repeat split.
    + now replace (i + 1 - 1)%nat with i by lia.
    + intros k Hk. lia.
    + exists []. split; reflexivity.
  - discriminate.
  - destruct (IH Hc) as (Hlast & Hbefore & Hex & t' & Ht & Hn).
    pose proof (unfolds_attempts_bound _ _ _ _ Hu) as Hb.
    rewrite attempts_app, exits_app, Hex. cbn. repeat split.
    + match goal with
      | |- connector ?x = _ =>
          replace x with (S i + attempts t - 1)%nat by lia
      end.
      exact Hlast.
    + intros k Hk. destruct k as [| k].
      * rewrite Nat.add_0_r, Hi. discriminate.
      * replace (i + S k)%nat with (S i + k)%nat by lia.
        apply Hbefore. lia.
    + exists (retry_round envConfig r e ++ t'). split.
      * rewrite Ht. cbn. reflexivity.
      * rewrite attempts_app. cbn. lia.
Qed.

(** A run that stops the process used up the counter: every attempt was
    refused, the exit is the last event and the only one. *)
Lemma unfolds_halts retries i t code :
  unfolds envConfig connector retries i t (Halt code) ->
  code = 1 /\
  (forall k, (k < attempts t)%nat -> connector (i + k)%nat <> Established) /\
  (0 <= retries -> Z.of_nat (attempts t) = retries + 1) /\
  exists t' e,
    t = t' ++ fatal_round envConfig e /\
    (attempts t' = attempts t - 1)%nat /\
    exits t' = [].
Proof.
  remember (Halt code) as c eqn:Hc.
  induction 1 as [r i Hi | r i e Hi Hr | r i e t c' Hi Hr Hu IH].
  - discriminate.
  - injection Hc as <-. cbn. repeat split.
    + intros k Hk. replace k with 0%nat by lia.
      rewrite Nat.add_0_r, Hi. discriminate.
    + lia.
    + exists [], e. repeat split.
  - destruct (IH Hc) as (Hcode & Hall & Hcount & t' & e' & Ht & Hn & Hex).
    pose proof (unfolds_attempts_bound _ _ _ _ Hu) as Hb.
    rewrite attempts_app. cbn. repeat split.
    + exact Hcode.
    + intros k Hk. destruct k as [| k].
      * rewrite Nat.add_0_r, Hi. discriminate.
      * replace (i + S k)%nat with (S i + k)%nat by lia.
        apply Hall. lia.
    + lia.
    + exists (retry_round envConfig r e ++ t'), e'. repeat split.
      * rewrite Ht. cbn. reflexivity.
      * rewrite attempts_app. cbn. lia.
      * rewrite exits_app, Hex. reflexivity.
Qed.

(** One delay of [RETRY_DELAY] per attempt but the last. *)
Lemma unfolds_delays retries i t c :
  unfolds envConfig connector retries i t c ->
  delays t = repeat RETRY_DELAY (attempts t - 1).
Proof.
  induction 1 as [r i Hc | r i e Hc Hr | r i e t c Hc Hr Hu IH].
  - reflexivity.
  - reflexivity.
  - pose proof (unfolds_attempts_bound _ _ _ _ Hu) as Hb.
    rewrite delays_app, attempts_app, IH. cbn.
    replace (attempts t - 0)%nat with (S (attempts t - 1)) by lia.
    reflexivity.
Qed.

(** Between two consecutive attempts exactly one delay of [RETRY_DELAY] is
    requested; after the last attempt, none. *)
Lemma unfolds_pauses retries i t c :
  unfolds envConfig connector retries i t c ->
  pauses t = repeat [RETRY_DELAY] (attempts t - 1) ++ [[]].
Proof.
  induction 1 as [r i Hc | r i e Hc Hr | r i e t c Hc Hr Hu IH].
  - reflexivity.
  - reflexivity.
  - pose proof (unfolds_attempts_bound _ _ _ _ Hu) as Hb.
    destruct (unfolds_starts_with_attempt _ _ _ _ Hu) as (t' & Ht).
    rewrite attempts_app. cbn.
    replace (attempts t - 0)%nat with (S (attempts t - 1)) by lia.
    cbn. rewrite <- IH. rewrite Ht. reflexivity.
Qed.

(** Every [console.log] line is the success line or a retry line whose
    total is [MAX_RETRIES]. *)
Lemma unfolds_stdout retries i t c :
  unfolds envConfig connector retries i t c ->
  forall line, In line (stdout t) ->
    line = "Connected to MongoDB"%string \/
    exists r, 0 < r <= retries /\ line = retrying_line r.
Proof.
  induction 1 as [r i Hc | r i e Hc Hr | r i e t c Hc Hr Hu IH];
    intros line Hin.
  - cbn in Hin. destruct Hin as [<- | []]. now left.
  - cbn in Hin. contradiction.
  - rewrite stdout_app in Hin. cbn in Hin. destruct Hin as [<- | Hin].
    + right. exists r. split; [lia | reflexivity].
    + destruct (IH line Hin) as [-> | (r' & Hr' & ->)]; [now left |].
      right. exists r'. split; [lia | reflexivity].
Qed.

(** The derivation is determined by the counter and the outcomes. *)
Lemma unfolds_functional retries i t c t' c' :
  unfolds envConfig connector retries i t c ->
  unfolds envConfig connector retries i t' c' ->
  t = t' /\ c = c'.
Proof.
  intros H. revert t' c'.
  induction H as [r i Hc | r i e Hc Hr | r i e t c Hc Hr Hu IH];
    intros t' c' H'; inversion H'; subst; try congruence; try lia.
  - split; reflexivity.
  - replace e0 with e by congruence. split; reflexivity.
  - replace e0 with e in * by congruence.
    match goal with
    | K : unfolds _ _ (_ - 1) _ _ _ |- _ => destruct (IH _ _ K) as [-> ->]
    end.
    split; reflexivity.
Qed.

End Runs.

(** Only the outcomes of the calls a run can reach matter. *)
Lemma unfolds_agree envConfig (c1 c2 : nat -> connect_result) retries i t c :
  unfolds envConfig c1 retries i t c ->
  (forall k, (i <= k <= i + Z.to_nat retries)%nat -> c1 k = c2 k) ->
  unfolds envConfig c2 retries i t c.
Proof.
  induction 1 as [r i Hc | r i e Hc Hr | r i e t c Hc Hr Hu IH]; intros Hag.
  - apply unfolds_connected. rewrite <- Hag by lia. exact Hc.
  - apply unfolds_exhausted; [| exact Hr]. rewrite <- Hag by lia. exact Hc.
  - apply unfolds_retry; [| exact Hr |].
    + rewrite <- Hag by lia. exact Hc.
    + apply IH. intros k Hk. apply Hag. lia.
Qed.

(** ** Runs whose first attempts are all refused *)

Section Prefix.

Variable envConfig : EnvConfig.

Lemma retry_rounds_attempts j retries err i :
  attempts (retry_rounds envConfig j retries err i) = j.
Proof.
  revert retries i. induction j as [| j IH]; intros retries i; cbn.
  - reflexivity.
  - change (S (attempts (retry_rounds envConfig j (retries - 1) err (S i))) = S j).
    now rewrite IH.
Qed.

Lemma retry_rounds_delays j retries err i :
  delays (retry_rounds envConfig j retries err i) = repeat RETRY_DELAY j.
Proof.
  revert retries i. induction j as [| j IH]; intros retries i; cbn.
  - reflexivity.
  - f_equal. apply IH.
Qed.

Lemma retry_rounds_exits j retries err i :
  exits (retry_rounds envConfig j retries err i) = [].
Proof.
  revert retries i. induction j as [| j IH]; intros retries i; cbn.
  - reflexivity.
  - apply IH.
Qed.

Lemma retry_rounds_stdout j retries err i :
  stdout (retry_rounds envConfig j retries err i) =
  map (fun m => retrying_line (retries - Z.of_nat m)) (seq 0 j).
Proof.
  revert retries i. induction j as [| j IH]; intros retries i.
  - reflexivity.
  - cbn [retry_rounds]. rewrite stdout_app, IH.
    change (stdout (retry_round envConfig retries (err i)))
      with [retrying_line retries].
    cbn [seq map app]. rewrite <- seq_shift, map_map. f_equal.
    + f_equal. lia.
    + apply map_ext. intros m. f_equal. lia.
Qed.

Variable connector : nat -> connect_result.

Lemma refused_reason i :
  connector i <> Established -> connector i = Refused (reason_of (connector i)).
Proof.
  destruct (connector i); [congruence | reflexivity].
Qed.

(** [j] refusals in a row, each with a retry left, amount to [j] retry
    rounds and a call with the counter lowered by [j]. *)
Lemma connectDB_retry_rounds (j : nat) (retries : Z) (w : world) :
  Z.of_nat j <= retries ->
  (forall k, (k < j)%nat -> connector (calls w + k)%nat <> Established) ->
  connectDB envConfig connector retries w =
  connectDB envConfig connector (retries - Z.of_nat j)
    (after w (retry_rounds envConfig j retries
                (fun i => reason_of (connector i)) (calls w))).
Proof.
  revert retries w. induction j as [| j IH]; intros retries w Hj Hfail.
  - cbn [retry_rounds]. rewrite after_nil. f_equal. lia.
  - assert (Hc : connector (calls w) <> Established).
    { specialize (Hfail 0%nat ltac:(lia)). now rewrite Nat.add_0_r in Hfail. }
    apply refused_reason in Hc.
    rewrite (connectDB_retry _ _ retries w _ Hc) by lia.
    rewrite IH.
    + rewrite after_app. f_equal; [lia |]. f_equal. cbn [retry_rounds].
      f_equal. f_equal. cbn. lia.
    + lia.
    + intros k Hk. cbn.
      replace (calls w + 1 + k)%nat with (calls w + S k)%nat by lia.
      apply Hfail. lia.
Qed.

(** All attempts refused: [N] retry rounds, then the fatal one. *)
Lemma connectDB_all_refused (N : Z) (w : world) :
  0 <= N ->
  (forall i, connector i <> Established) ->
  connectDB envConfig connector N w =
  (Halt 1,
   after w (retry_rounds envConfig (Z.to_nat N) N
              (fun i => reason_of (connector i)) (calls w)
            ++ fatal_round envConfig
                 (reason_of (connector (calls w + Z.to_nat N))))).
Proof.
  intros HN Hfail.
  rewrite (connectDB_retry_rounds (Z.to_nat N)) by (intros; auto; lia).
  rewrite (connectDB_exhausted _ _ _ _
             (reason_of (connector (calls w + Z.to_nat N)))).
  - rewrite after_app. reflexivity.
  - cbn. rewrite retry_rounds_attempts. apply refused_reason, Hfail.
  - lia.
Qed.

(** First success at attempt [k] within the budget: [k - 1] retry rounds,
    then the successful one. *)
Lemma connectDB_first_success (N : Z) (k : nat) (w : world) :
  (1 <= k)%nat ->
  Z.of_nat k <= N + 1 ->
  (forall i, (i < k - 1)%nat -> connector (calls w + i)%nat <> Established) ->
  connector (calls w + (k - 1))%nat = Established ->
  connectDB envConfig connector N w =
  (Normal tt,
   after w (retry_rounds envConfig (k - 1) N
              (fun i => reason_of (connector i)) (calls w)
            ++ connected_round envConfig)).
Proof.
  intros Hk HN Hfail Hok.
  rewrite (connectDB_retry_rounds (k - 1)) by (auto; lia).
  rewrite connectDB_connected.
  - rewrite after_app. reflexivity.
  - cbn. rewrite retry_rounds_attempts. exact Hok.
Qed.

End Prefix.

(** ** The supervisor's contract *)

(** The integer view.  For every [N >= 0], when every connection attempt
    fails, [connectDB N] makes exactly [N + 1] attempts (the initial one and
    [N] retries) and only then raises the fatal signal: the process exits
    with status 1, the exit is the last event of the run, and the [N + 1]
    attempts all come before it. *)
Lemma connectDB_all_fail_attempts
  (envConfig : EnvConfig) (connector : nat -> connect_result) (N : Z) :
  0 <= N ->
  (forall i, connector i <> Established) ->
  exists t,
    connectDB envConfig connector N boot =
      (Halt 1, {| calls := Z.to_nat N + 1; trace := t ++ [ProcessExit 1] |}) /\
    Z.of_nat (attempts t) = N + 1 /\
    exits t = [].
Proof.
  intros HN Hfail.
  set (err := fun i => reason_of (connector i)).
  exists (retry_rounds envConfig (Z.to_nat N) N err 0
          ++ [attempt envConfig;
              ConsoleError "MongoDB connection error:"
                (Some (err (Z.to_nat N)));
              ConsoleError "Failed to connect to MongoDB after maximum retries"
                None]).
  repeat split.
  - rewrite (connectDB_all_refused envConfig connector N boot HN Hfail).
    unfold after, boot, fatal_round; cbn [calls trace].
    rewrite attempts_app, retry_rounds_attempts, <- app_assoc. cbn.
    reflexivity.
  - rewrite attempts_app, retry_rounds_attempts. cbn. lia.
  - rewrite exits_app, retry_rounds_exits. reflexivity.
Qed.

(** The integer view.  [connectDB] terminates for every counter and every
    sequence of connector outcomes, in one of two ways: it returns normally,
    the last attempt having established the connection, or it stops the
    process with a non-zero status.  It makes at least one and at most
    [retries + 1] attempts.  Each retry is a call of [connectDB] with the
    counter lowered by one, which lowers the measure of the recursion. *)
Lemma connectDB_terminates
  (envConfig : EnvConfig) (connector : nat -> connect_result)
  (retries : Z) (w : world) :
  (exists t,
     (1 <= attempts t <= Z.to_nat retries + 1)%nat /\
     ((connectDB envConfig connector retries w = (Normal tt, after w t) /\
       connector (calls w + attempts t - 1)%nat = Established)
      \/
      (exists code t',
         code <> 0 /\
         connectDB envConfig connector retries w = (Halt code, after w t) /\
         t = t' ++ [ProcessExit code]))) /\
  (forall e,
     connector (calls w) = Refused e ->
     0 < retries ->
     connectDB envConfig connector retries w =
       connectDB envConfig connector (retries - 1)
         (after w (retry_round envConfig retries e)) /\
     (Z.to_nat (retries - 1) < Z.to_nat retries)%nat).
Proof.
  split.
  - destruct (connectDB_unfolds envConfig connector retries w)
      as (t & c & Hu & Hrun).
    exists t. split; [eapply unfolds_attempts_bound; eauto |].
    destruct (unfolds_completion _ _ _ _ _ _ Hu) as [-> | ->].
    + left. split; [exact Hrun |].
      apply (unfolds_returns _ _ _ _ _ Hu).
    + right.
      destruct (unfolds_halts _ _ _ _ _ _ Hu)
        as (_ & _ & _ & t' & e & Ht & _).
      exists 1, (t' ++ [attempt envConfig;
                        ConsoleError "MongoDB connection error:" (Some e);
                        ConsoleError
                          "Failed to connect to MongoDB after maximum retries"
                          None]).
      repeat split; [lia | exact Hrun |].
      rewrite Ht, <- app_assoc. reflexivity.
  - intros e Hc Hr. split; [now apply connectDB_retry | lia].
Qed.

(** The integer view.  For [N >= 0] and [1 <= k <= N + 1], when attempt [k]
    succeeds and all attempts before it failed, [connectDB N] makes exactly
    [k] attempts, logs the success line right after the successful attempt,
    returns normally with nothing done after that line, and never calls
    [process.exit]. *)
Lemma connectDB_succeeds_at_attempt
  (envConfig : EnvConfig) (connector : nat -> connect_result)
  (N : Z) (k : nat) :
  0 <= N ->
  (1 <= k)%nat ->
  Z.of_nat k <= N + 1 ->
  (forall i, (i < k - 1)%nat -> connector i <> Established) ->
  connector (k - 1)%nat = Established ->
  exists t,
    connectDB envConfig connector N boot =
      (Normal tt,
       {| calls := k;
          trace := t ++ [attempt envConfig;
                         ConsoleLog "Connected to MongoDB"] |}) /\
    attempts t = (k - 1)%nat /\
    attempts (t ++ [attempt envConfig; ConsoleLog "Connected to MongoDB"]) = k /\
    exits (t ++ [attempt envConfig; ConsoleLog "Connected to MongoDB"]) = [].
Proof.
  intros HN Hk HkN Hfail Hok.
  exists (retry_rounds envConfig (k - 1) N
            (fun i => reason_of (connector i)) 0).
  repeat split.
  - rewrite (connectDB_first_success envConfig connector N k boot)
      by (cbn; auto).
    unfold after, boot, connected_round; cbn [calls trace].
    rewrite attempts_app, retry_rounds_attempts. cbn.
    do 2 f_equal. lia.
  - apply retry_rounds_attempts.
  - rewrite attempts_app, retry_rounds_attempts. cbn. lia.
  - rewrite exits_app, retry_rounds_exits. reflexivity.
Qed.

(** C4.  When an attempt fails with the counter at zero, [connectDB] logs
    the error, then the terminal line "Failed to connect to MongoDB after
    maximum retries", which no other line written by [connectDB] equals,
    and then exits the process with status 1, which is not zero.  The run
    ends there: control does not come back to the caller, and neither a
    further attempt nor a delay follows the failed attempt. *)
Theorem connectDB_fatal_when_exhausted
  (envConfig : EnvConfig) (connector : nat -> connect_result)
  (w : world) (e : js_error) :
  connector (calls w) = Refused e ->
  let final := [attempt envConfig;
                ConsoleError "MongoDB connection error:" (Some e);
                ConsoleError
                  "Failed to connect to MongoDB after maximum retries" None;
                ProcessExit 1] in
  connectDB envConfig connector 0 w =
    (Halt 1, {| calls := S (calls w); trace := trace w ++ final |}) /\
  1 <> 0 /\
  attempts final = 1%nat /\
  delays final = [] /\
  stderr final =
    ["MongoDB connection error:"%string;
     "Failed to connect to MongoDB after maximum retries"%string] /\
  (forall r,
     retrying_line r <>
     "Failed to connect to MongoDB after maximum retries"%string) /\
  "Connected to MongoDB"%string <>
    "Failed to connect to MongoDB after maximum retries"%string /\
  "MongoDB connection error:"%string <>
    "Failed to connect to MongoDB after maximum retries"%string.
Proof.
  intros Hc final.
  split; [| repeat split; discriminate].
  rewrite (connectDB_exhausted _ _ 0 w e Hc) by lia.
  unfold after, fatal_round, final. cbn. do 2 f_equal. lia.
Qed.

Lemma connectDB_fatal_when_exhausted_witness :
  unreachable (calls boot) = Refused econnrefused /\
  connectDB sample_env unreachable 0 boot =
    (Halt 1,
     {| calls := 1;
        trace := [attempt sample_env;
                  ConsoleError "MongoDB connection error:" (Some econnrefused);
                  ConsoleError
                    "Failed to connect to MongoDB after maximum retries" None;
                  ProcessExit 1] |}).
Proof.
  split; [reflexivity |].
  apply (connectDB_fatal_when_exhausted sample_env unreachable boot
           econnrefused).
  reflexivity.
Defined.

(** The integer view.  A failure met with a positive counter is handled
    inside [connectDB]: it leaves two log lines and a delay in the trace and
    the run goes on as [connectDB (retries - 1)].  Whatever the connector
    does, [connectDB] never completes with a thrown value: the promise it
    returns does not reject. *)
Lemma connectDB_never_rejects
  (envConfig : EnvConfig) (connector : nat -> connect_result)
  (retries : Z) (w : world) :
  (forall e, fst (connectDB envConfig connector retries w) <> Throw e) /\
  (forall e,
     connector (calls w) = Refused e ->
     0 < retries ->
     connectDB envConfig connector retries w =
       connectDB envConfig connector (retries - 1)
         {| calls := S (calls w);
            trace := trace w ++
                     [attempt envConfig;
                      ConsoleError "MongoDB connection error:" (Some e);
                      ConsoleLog (retrying_line retries);
                      SetTimeout RETRY_DELAY] |}).
Proof.
  split.
  - intros e.
    destruct (connectDB_unfolds envConfig connector retries w)
      as (t & c & Hu & ->).
    destruct (unfolds_completion _ _ _ _ _ _ Hu) as [-> | ->]; discriminate.
  - intros e Hc Hr.
    rewrite (connectDB_retry _ _ retries w e Hc Hr).
    f_equal. unfold after, retry_round. cbn. f_equal. lia.
Qed.

(** ** Whole runs from process start *)

Lemma connectDB_boot_run
  (envConfig : EnvConfig) (connector : nat -> connect_result) (retries : Z) :
  exists t c,
    unfolds envConfig connector retries 0 t c /\
    connectDB envConfig connector retries boot =
      (c, {| calls := attempts t; trace := t |}).
Proof.
  destruct (connectDB_unfolds envConfig connector retries boot)
    as (t & c & Hu & Hrun).
  exists t, c. split; [exact Hu | exact Hrun].
Qed.

(** Two data stores that answer alike on the calls a run can reach give
    the same run. *)
Lemma connectDB_agree
  (envConfig : EnvConfig) (c1 c2 : nat -> connect_result)
  (retries : Z) (w : world) :
  (forall k, (calls w <= k <= calls w + Z.to_nat retries)%nat -> c1 k = c2 k) ->
  connectDB envConfig c1 retries w = connectDB envConfig c2 retries w.
Proof.
  intros Hag.
  destruct (connectDB_unfolds envConfig c1 retries w) as (t & c & Hu & ->).
  destruct (connectDB_unfolds envConfig c2 retries w) as (t' & c' & Hu' & ->).
  apply (unfolds_agree _ _ c2) in Hu; [| exact Hag].
  destruct (unfolds_functional _ _ _ _ _ _ _ _ Hu Hu') as [-> ->].
  reflexivity.
Qed.

Lemma retrying_line_shape (r : Z) :
  retrying_line r =
  ("Retrying connection... (" ++ template_number (5 - r + 1) ++ "/5)")%string.
Proof. reflexivity. Qed.

(** The integer view.  Every delay requested by [connectDB] is [RETRY_DELAY]
    = 5000 ms: between two consecutive attempts exactly one such delay is
    requested, and none after the last attempt, so a run of [A] attempts
    requests [A - 1] delays.  A run that succeeds at attempt [k] requests
    [k - 1] of them, a run that exhausts the counter [N] requests [N], and
    with the counter at zero a failing run stops at once, without any
    delay. *)
Lemma connectDB_fixed_delay
  (envConfig : EnvConfig) (connector : nat -> connect_result) (retries : Z) :
  let run := connectDB envConfig connector retries boot in
  let t := trace (snd run) in
  RETRY_DELAY = 5000 /\
  pauses t = repeat [RETRY_DELAY] (attempts t - 1) ++ [[]] /\
  delays t = repeat RETRY_DELAY (attempts t - 1) /\
  (forall k,
     (1 <= k)%nat ->
     Z.of_nat k <= retries + 1 ->
     (forall i, (i < k - 1)%nat -> connector i <> Established) ->
     connector (k - 1)%nat = Established ->
     fst run = Normal tt /\ attempts t = k /\
     delays t = repeat RETRY_DELAY (k - 1)) /\
  (0 <= retries ->
   (forall i, connector i <> Established) ->
   fst run = Halt 1 /\ Z.of_nat (attempts t) = retries + 1 /\
   delays t = repeat RETRY_DELAY (Z.to_nat retries)) /\
  (retries = 0 ->
   connector 0%nat <> Established ->
   fst run = Halt 1 /\ attempts t = 1%nat /\ delays t = []).
Proof.
  intros run t.
  assert (Hgen : pauses t = repeat [RETRY_DELAY] (attempts t - 1) ++ [[]] /\
                 delays t = repeat RETRY_DELAY (attempts t - 1)).
  { subst t run.
    destruct (connectDB_boot_run envConfig connector retries)
      as (t & c & Hu & ->).
    cbn [snd trace]. split.
    - eapply unfolds_pauses; eauto.
    - eapply unfolds_delays; eauto. }
  destruct Hgen as [Hp Hd].
  split; [reflexivity |]. split; [exact Hp |]. split; [exact Hd |].
  split; [| split].
  - intros k Hk HkN Hfail Hok.
    assert (Hrun : fst run = Normal tt /\ attempts t = k).
    { subst t run.
      rewrite (connectDB_first_success envConfig connector retries k boot)
        by (cbn; auto).
      cbn [fst snd trace after boot]. split; [reflexivity |].
      cbn [app]. rewrite attempts_app, retry_rounds_attempts. cbn. lia. }
    destruct Hrun as [Hfst Hn].
    repeat split; [exact Hfst | exact Hn |].
    rewrite Hd, Hn. reflexivity.
  - intros HN Hfail.
    assert (Hrun : fst run = Halt 1 /\ attempts t = (Z.to_nat retries + 1)%nat).
    { subst t run.
      rewrite (connectDB_all_refused envConfig connector retries boot HN Hfail).
      cbn [fst snd trace after boot]. split; [reflexivity |].
      cbn [app]. rewrite attempts_app, retry_rounds_attempts. cbn. lia. }
    destruct Hrun as [Hfst Hn].
    repeat split; [exact Hfst | lia |].
    rewrite Hd, Hn. f_equal. lia.
  - intros -> Hc.
    apply refused_reason in Hc.
    subst t run.
    rewrite (connectDB_exhausted envConfig connector 0 boot _ Hc) by lia.
    cbn. repeat split.
Qed.

(** The integer view.  A failed attempt met with [remaining > 0] logs the
    retry line numbered [MAX_RETRIES - remaining + 1] out of [MAX_RETRIES].
    In a run started with the default counter [MAX_RETRIES] = 5 the
    numbering is 1-indexed: when the first [j] attempts fail, the first [j]
    lines of [console.log] are the retry lines (1/5) .. (j/5), in that
    order.  With failures on attempts 1 and 2 and a success on attempt 3,
    [console.log] shows exactly (1/5), (2/5) and then the success line,
    after 3 attempts. *)
Lemma connectDB_retry_line_numbering
  (envConfig : EnvConfig) (connector : nat -> connect_result) :
  (forall (remaining : Z) (w : world) (e : js_error),
     connector (calls w) = Refused e ->
     0 < remaining ->
     connectDB envConfig connector remaining w =
       connectDB envConfig connector (remaining - 1)
         {| calls := S (calls w);
            trace := trace w ++
              [attempt envConfig;
               ConsoleError "MongoDB connection error:" (Some e);
               ConsoleLog
                 ("Retrying connection... ("
                    ++ template_number (MAX_RETRIES - remaining + 1)
                    ++ "/" ++ template_number MAX_RETRIES ++ ")")%string;
               SetTimeout RETRY_DELAY] |}) /\
  (forall j,
     (j <= 5)%nat ->
     (forall i, (i < j)%nat -> connector i <> Established) ->
     firstn j (stdout (trace (snd (connectDB_default envConfig connector boot))))
     = map (fun a =>
              ("Retrying connection... (" ++ template_number (Z.of_nat a)
                 ++ "/5)")%string)
           (seq 1 j)) /\
  (connector 0%nat <> Established ->
   connector 1%nat <> Established ->
   connector 2%nat = Established ->
   fst (connectDB_default envConfig connector boot) = Normal tt /\
   attempts (trace (snd (connectDB_default envConfig connector boot))) = 3%nat /\
   stdout (trace (snd (connectDB_default envConfig connector boot))) =
     ["Retrying connection... (1/5)"%string;
      "Retrying connection... (2/5)"%string;
      "Connected to MongoDB"%string]).
Proof.
  split; [| split].
  - intros remaining w e Hc Hr.
    rewrite (connectDB_retry _ _ remaining w e Hc Hr).
    f_equal. unfold after, retry_round. cbn. f_equal. lia.
  - intros j Hj Hfail. unfold connectDB_default.
    rewrite (connectDB_retry_rounds envConfig connector j MAX_RETRIES boot)
      by (unfold MAX_RETRIES; cbn; auto; lia).
    match goal with
    | |- context [connectDB envConfig connector ?r ?w] =>
        destruct (connectDB_unfolds envConfig connector r w)
          as (t & c & _ & ->)
    end.
    cbn [snd trace after boot app].
    rewrite stdout_app, retry_rounds_stdout, firstn_app.
    rewrite length_map, length_seq, Nat.sub_diag, firstn_O, app_nil_r.
    rewrite firstn_all2 by (rewrite length_map, length_seq; lia).
    rewrite <- seq_shift, map_map.
    apply map_ext_in. intros m Hm. apply in_seq in Hm.
    rewrite retrying_line_shape. unfold MAX_RETRIES.
    replace (5 - (5 - Z.of_nat m) + 1) with (Z.of_nat (S m)) by lia.
    reflexivity.
  - intros H0 H1 H2. unfold connectDB_default.
    rewrite (connectDB_first_success envConfig connector MAX_RETRIES 3 boot).
    + cbn [fst snd trace after boot app]. repeat split.
    + lia.
    + unfold MAX_RETRIES. lia.
    + intros i Hi. destruct i as [| [| i]]; cbn; [assumption | assumption | lia].
    + exact H2.
Qed.

(** C8.  The run of [connectDB] is a function of the configuration, the
    counter and the per-attempt outcomes of the connector: two connectors
    with the same outcomes give the same completion and the same final
    world, hence the same attempts, delays and log lines in the same
    order.  No delay differs from [RETRY_DELAY]: there is neither jitter
    nor backoff. *)
Theorem connectDB_deterministic
  (envConfig : EnvConfig) (c1 c2 : nat -> connect_result)
  (retries : Z) (w : world) :
  (forall i, c1 i = c2 i) ->
  connectDB envConfig c1 retries w = connectDB envConfig c2 retries w /\
  Forall (fun ms => ms = RETRY_DELAY)
    (delays (trace (snd (connectDB envConfig c1 retries boot)))) /\
  delays (trace (snd (connectDB envConfig c1 retries boot))) =
  delays (trace (snd (connectDB envConfig c2 retries boot))).
Proof.
  intros Hsame.
  assert (Heq : forall w', connectDB envConfig c1 retries w' =
                           connectDB envConfig c2 retries w').
  { intros w'. apply connectDB_agree. intros k _. apply Hsame. }
  split; [apply Heq |]. split; [| now rewrite Heq].
  destruct (connectDB_boot_run envConfig c1 retries) as (t & c & Hu & ->).
  cbn [snd trace]. rewrite (unfolds_delays _ _ _ _ _ _ Hu).
  apply Forall_forall. intros ms Hin. now apply repeat_spec in Hin.
Qed.

Lemma connectDB_deterministic_witness :
  connectDB sample_env (reachable_at 2) 5 boot =
  connectDB sample_env
    (fun i => if (i =? 0)%nat then Refused econnrefused else Established)
    5 boot.
Proof.
  apply (connectDB_deterministic sample_env (reachable_at 2)
           (fun i => if (i =? 0)%nat then Refused econnrefused else Established)
           5 boot).
  intros i. destruct i as [| [| i]]; reflexivity.
Defined.

(** C9, as stated, fails for a counter that is not positive: called with
    [retries = 0] against a data store that refuses the first attempt,
    [connectDB] writes no retry line at all, so the first failure is not
    logged as attempt (6/5). *)
Lemma connectDB_zero_logs_no_retry_line :
  0 <> MAX_RETRIES /\
  unreachable 0%nat <> Established /\
  stdout (trace (snd (connectDB sample_env unreachable 0 boot))) = [] /\
  ~ (exists rest,
       stdout (trace (snd (connectDB sample_env unreachable 0 boot))) =
       ("Retrying connection... (" ++ template_number (5 - 0 + 1) ++ "/5)")%string
         :: rest) /\
  ~ In (ConsoleLog "Retrying connection... (6/5)")
       (trace (snd (connectDB sample_env unreachable 0 boot))).
Proof.
  split; [discriminate |]. split; [discriminate |].
  split; [reflexivity |]. split.
  - intros (rest & H). discriminate H.
  - cbn. intros H.
    repeat (destruct H as [H | H]; [discriminate H |]).
    exact H.
Qed.

(** The integer view.  Every retry line written by [connectDB] shows the
    total [MAX_RETRIES] = 5, whatever counter was passed.  For a call
    [connectDB r] with [r > 0] whose first attempt fails, the first line of
    [console.log] is the retry line numbered [5 - r + 1] out of 5: (4/5) for
    [r = 2], above the counter passed; (0/5) for [r = 6] and (-1/5) for
    [r = 7]. *)
Lemma connectDB_retry_line_total
  (envConfig : EnvConfig) (connector : nat -> connect_result) (r : Z) :
  (forall line,
     In line (stdout (trace (snd (connectDB envConfig connector r boot)))) ->
     line = "Connected to MongoDB"%string \/
     exists m,
       line = ("Retrying connection... (" ++ template_number m ++ "/5)")%string) /\
  (0 < r ->
   connector 0%nat <> Established ->
   exists rest,
     stdout (trace (snd (connectDB envConfig connector r boot))) =
     ("Retrying connection... (" ++ template_number (5 - r + 1) ++ "/5)")%string
       :: rest) /\
  (connector 0%nat <> Established ->
   (exists rest,
      stdout (trace (snd (connectDB envConfig connector 2 boot))) =
      "Retrying connection... (4/5)"%string :: rest) /\
   (exists rest,
      stdout (trace (snd (connectDB envConfig connector 6 boot))) =
      "Retrying connection... (0/5)"%string :: rest) /\
   (exists rest,
      stdout (trace (snd (connectDB envConfig connector 7 boot))) =
      "Retrying connection... (-1/5)"%string :: rest)).
Proof.
  assert (Hfirst : forall r',
            0 < r' ->
            connector 0%nat <> Established ->
            exists rest,
              stdout (trace (snd (connectDB envConfig connector r' boot))) =
              retrying_line r' :: rest).
  { intros r' Hr Hc. apply refused_reason in Hc.
    rewrite (connectDB_retry envConfig connector r' boot _ Hc Hr).
    match goal with
    | |- context [connectDB envConfig connector ?x ?w] =>
        destruct (connectDB_unfolds envConfig connector x w)
          as (t & c & _ & ->)
    end.
    exists (stdout t).
    cbn [snd trace after boot app]. rewrite stdout_app. reflexivity. }
  split; [| split].
  - destruct (connectDB_boot_run envConfig connector r) as (t & c & Hu & ->).
    cbn [snd trace]. intros line Hin.
    destruct (unfolds_stdout _ _ _ _ _ _ Hu line Hin)
      as [-> | (r' & _ & ->)]; [now left |].
    right. exists (5 - r' + 1). apply retrying_line_shape.
  - intros Hr Hc. destruct (Hfirst r Hr Hc) as (rest & ->).
    exists rest. reflexivity.
  - intros Hc. repeat split.
    + destruct (Hfirst 2 ltac:(lia) Hc) as (rest & ->). now exists rest.
    + destruct (Hfirst 6 ltac:(lia) Hc) as (rest & ->). now exists rest.
    + destruct (Hfirst 7 ltac:(lia) Hc) as (rest & ->). now exists rest.
Qed.

(** C10.  Called with a negative counter, [connectDB] runs exactly as with
    the counter at zero.  It makes one attempt; when that attempt fails it
    logs the error and the terminal line and exits the process with status
    1, with no retry and no delay, the guard [retries > 0] being false. *)
Theorem connectDB_negative_retries
  (envConfig : EnvConfig) (connector : nat -> connect_result)
  (retries : Z) (w : world) :
  retries < 0 ->
  connectDB envConfig connector retries w = connectDB envConfig connector 0 w /\
  (connector (calls w) = Established ->
   connectDB envConfig connector retries w =
     (Normal tt,
      {| calls := S (calls w);
         trace := trace w ++ [attempt envConfig;
                              ConsoleLog "Connected to MongoDB"] |})) /\
  (forall e,
     connector (calls w) = Refused e ->
     connectDB envConfig connector retries w =
       (Halt 1,
        {| calls := S (calls w);
           trace := trace w ++
             [attempt envConfig;
              ConsoleError "MongoDB connection error:" (Some e);
              ConsoleError
                "Failed to connect to MongoDB after maximum retries" None;
              ProcessExit 1] |})).
Proof.
  intros Hneg. split; [| split].
  - destruct (connector (calls w)) as [| e] eqn:Hc.
    + now rewrite !connectDB_connected.
    + rewrite !(connectDB_exhausted _ _ _ w e Hc) by lia. reflexivity.
  - intros Hc. rewrite (connectDB_connected _ _ retries w Hc).
    unfold after, connected_round. cbn. do 2 f_equal. lia.
  - intros e Hc. rewrite (connectDB_exhausted _ _ retries w e Hc) by lia.
    unfold after, fatal_round. cbn. do 2 f_equal. lia.
Qed.

Lemma connectDB_negative_retries_witness :
  -3 < 0 /\
  connectDB sample_env unreachable (-3) boot =
    connectDB sample_env unreachable 0 boot /\
  connectDB sample_env unreachable (-3) boot =
    (Halt 1,
     {| calls := 1;
        trace := [attempt sample_env;
                  ConsoleError "MongoDB connection error:" (Some econnrefused);
                  ConsoleError
                    "Failed to connect to MongoDB after maximum retries" None;
                  ProcessExit 1] |}).
Proof.
  split; [lia |].
  destruct (connectDB_negative_retries sample_env unreachable (-3) boot
              ltac:(lia)) as (Hzero & _ & Hfail).
  split; [exact Hzero |].
  apply (Hfail econnrefused). reflexivity.
Defined.

(** ** The runs of the specification's scenarios, by evaluation *)

Example scenario_third_attempt_succeeds :
  connectDB_default sample_env (reachable_at 3) boot =
  (Normal tt,
   {| calls := 3;
      trace :=
        [attempt sample_env;
         ConsoleError "MongoDB connection error:" (Some econnrefused);
         ConsoleLog "Retrying connection... (1/5)";
         SetTimeout 5000;
         attempt sample_env;
         ConsoleError "MongoDB connection error:" (Some econnrefused);
         ConsoleLog "Retrying connection... (2/5)";
         SetTimeout 5000;
         attempt sample_env;
         ConsoleLog "Connected to MongoDB"] |}).
Proof. vm_compute. reflexivity. Qed.

Example scenario_two_retries_all_fail :
  connectDB sample_env unreachable 2 boot =
  (Halt 1,
   {| calls := 3;
      trace :=
        [attempt sample_env;
         ConsoleError "MongoDB connection error:" (Some econnrefused);
         ConsoleLog "Retrying connection... (4/5)";
         SetTimeout 5000;
         attempt sample_env;
         ConsoleError "MongoDB connection error:" (Some econnrefused);
         ConsoleLog "Retrying connection... (5/5)";
         SetTimeout 5000;
         attempt sample_env;
         ConsoleError "MongoDB connection error:" (Some econnrefused);
         ConsoleError "Failed to connect to MongoDB after maximum retries" None;
         ProcessExit 1] |}).
Proof. vm_compute. reflexivity. Qed.

Example scenario_immediate_success :
  connectDB_default sample_env (reachable_at 1) boot =
  (Normal tt,
   {| calls := 1;
      trace := [attempt sample_env; ConsoleLog "Connected to MongoDB"] |}).
Proof. vm_compute. reflexivity. Qed.

(** ** Further facts about the runs of [connectDB] *)

Section Shape.

Variable envConfig : EnvConfig.
Variable connector : nat -> connect_result.


(** The [console.log] lines of a run: one retry line per attempt but the
    last, with the counter going down by one, then the success line when
    the run returns. *)
Lemma unfolds_stdout_shape retries i t c :
  unfolds envConfig connector retries i t c ->
  stdout t =
  map (fun m => retrying_line (retries - Z.of_nat m)) (seq 0 (attempts t - 1))
  ++ match c with
     | Normal _ => ["Connected to MongoDB"%string]
     | _ => []
     end.
Proof.
  induction 1 as [r i Hc | r i e Hc Hr | r i e t c Hc Hr Hu IH].
  - reflexivity.
  - reflexivity.
  - pose proof (unfolds_attempts_bound _ _ _ _ _ _ Hu) as Hb.
    rewrite stdout_app, attempts_app, IH.
    change (stdout (retry_round envConfig r e)) with [retrying_line r].
    change (attempts (retry_round envConfig r e)) with 1%nat.
    replace (1 + attempts t - 1)%nat with (S (attempts t - 1)) by lia.
    cbn [seq map app]. rewrite <- seq_shift, map_map. f_equal.
    + f_equal. lia.
    + f_equal. apply map_ext. intros m. f_equal. lia.
Qed.


(** [process.exit] is called once, with status 1 and as the last action,
    by a run that stops the process, and never by a run that returns. *)
Lemma unfolds_exits retries i t c :
  unfolds envConfig connector retries i t c ->
  match c with
  | Halt _ =>
      exits t = [1] /\ last t (attempt envConfig) = ProcessExit 1
  | _ =>
      exits t = [] /\
      last t (attempt envConfig) = ConsoleLog "Connected to MongoDB"
  end.
Proof.
  induction 1 as [r i Hc | r i e Hc Hr | r i e t c Hc Hr Hu IH].
  - split; reflexivity.
  - split; reflexivity.
  - destruct (unfolds_starts_with_attempt _ _ _ _ _ _ Hu) as (t' & ->).
    assert (Hlast : last (retry_round envConfig r e ++ attempt envConfig :: t')
                      (attempt envConfig)
                    = last (attempt envConfig :: t') (attempt envConfig))
      by reflexivity.
    rewrite exits_app, Hlast. cbn [retry_round exits flat_map app].
    exact IH.
Qed.

(** Every connection attempt of a run goes to the configured store. *)
Lemma unfolds_targets retries i t c :
  unfolds envConfig connector retries i t c ->
  forall target database,
    In (MongooseConnect target database) t ->
    target = uri (mongo envConfig) /\ database = dbName (mongo envConfig).
Proof.
  induction 1 as [r i Hc | r i e Hc Hr | r i e t c Hc Hr Hu IH];
    intros target database Hin.
  - cbn in Hin. destruct Hin as [[= <- <-] | [[=] | []]]. now split.
  - cbn in Hin.
    destruct Hin as [[= <- <-] | [[=] | [[=] | [[=] | []]]]]. now split.
  - apply in_app_or in Hin. destruct Hin as [Hin | Hin]; [| now apply IH].
    cbn in Hin.
    destruct Hin as [[= <- <-] | [[=] | [[=] | [[=] | []]]]]. now split.
Qed.

End Shape.

(** A run against the outcomes from call [k] on is a run whose first
    attempt is call [k]. *)
Lemma unfolds_shift envConfig (connector : nat -> connect_result) (k : nat)
  retries i t c :
  unfolds envConfig (fun j => connector (k + j)%nat) retries i t c ->
  unfolds envConfig connector retries (k + i) t c.
Proof.
  induction 1 as [r i Hc | r i e Hc Hr | r i e t c Hc Hr Hu IH].
  - now apply unfolds_connected.
  - now apply unfolds_exhausted with (e := e).
  - apply unfolds_retry; [exact Hc | exact Hr |].
    now rewrite <- Nat.add_succ_r.
Qed.

(** What [connectDB] adds to the trace does not depend on the world it
    starts from, only on the outcomes of the calls it makes. *)
Lemma connectDB_shift envConfig (connector : nat -> connect_result)
  (retries : Z) (w : world) :
  connectDB envConfig connector retries w =
  (fst (connectDB envConfig (fun j => connector (calls w + j)%nat) retries boot),
   after w (trace (snd (connectDB envConfig
                          (fun j => connector (calls w + j)%nat) retries boot)))).
Proof.
  destruct (connectDB_unfolds envConfig connector retries w)
    as (t & c & Hu & ->).
  destruct (connectDB_boot_run envConfig
              (fun j => connector (calls w + j)%nat) retries)
    as (t' & c' & Hu' & ->).
  apply unfolds_shift in Hu'. rewrite Nat.add_0_r in Hu'.
  destruct (unfolds_functional _ _ _ _ _ _ _ _ Hu Hu') as [-> ->].
  reflexivity.
Qed.

(** A run returns exactly when one of the first [retries + 1] outcomes (one
    outcome for a counter below zero) is a success. *)
Lemma connectDB_returns_iff envConfig (connector : nat -> connect_result)
  (retries : Z) :
  fst (connectDB envConfig connector retries boot) = Normal tt <->
  exists k, (k <= Z.to_nat retries)%nat /\ connector k = Established.
Proof.
  destruct (connectDB_boot_run envConfig connector retries)
    as (t & c & Hu & ->).
  cbn [fst]. split.
  - intros ->.
    pose proof (unfolds_attempts_bound _ _ _ _ _ _ Hu) as Hb.
    destruct (unfolds_returns _ _ _ _ _ Hu) as (Hlast & _).
    exists (attempts t - 1)%nat. split; [lia | exact Hlast].
  - intros (k & Hk & Hok).
    destruct (unfolds_completion _ _ _ _ _ _ Hu) as [-> | ->];
      [reflexivity |].
    exfalso.
    pose proof (unfolds_attempts_bound _ _ _ _ _ _ Hu) as Hb.
    destruct (unfolds_halts _ _ _ _ _ _ Hu) as (_ & Hall & Hcount & _).
    apply (Hall k); [| exact Hok].
    destruct (Z_le_gt_dec 0 retries) as [Hpos | Hneg].
    + specialize (Hcount Hpos). lia.
    + lia.
Qed.

(** The number of attempts of a run that returns is the position of the
    first success. *)
Lemma connectDB_returns_at envConfig (connector : nat -> connect_result)
  (retries : Z) :
  fst (connectDB envConfig connector retries boot) = Normal tt ->
  let a := attempts (trace (snd (connectDB envConfig connector retries boot))) in
  (1 <= a)%nat /\
  connector (a - 1)%nat = Established /\
  (forall k, (k < a - 1)%nat -> connector k <> Established).
Proof.
  destruct (connectDB_boot_run envConfig connector retries)
    as (t & c & Hu & ->).
  cbn [fst snd trace]. intros ->.
  pose proof (unfolds_attempts_bound _ _ _ _ _ _ Hu) as Hb.
  destruct (unfolds_returns _ _ _ _ _ Hu) as (Hlast & Hbefore & _).
  repeat split; [lia | exact Hlast | exact Hbefore].
Qed.

Lemma total_delay_repeat (n : nat) :
  fold_right Z.add 0 (repeat RETRY_DELAY n) = RETRY_DELAY * Z.of_nat n.
Proof.
  induction n as [| n IH]; [reflexivity |].
  cbn [repeat fold_right]. rewrite IH. lia.
Qed.

(** *** The decimal rendering identifies the number *)

Lemma template_number_parses (z : Z) :
  NilZero.int_of_string (template_number z) = Some (Z.to_int z).
Proof.
  unfold template_number. apply NilZero.isi.
  - destruct z as [| p | p]; cbn; try discriminate.
    intros [= H]. now apply (DecimalPos.Unsigned.to_uint_nonnil p).
  - destruct z as [| p | p]; cbn; try discriminate.
    intros [= H]. now apply (DecimalPos.Unsigned.to_uint_nonnil p).
Qed.

Lemma template_number_inj (z z' : Z) :
  template_number z = template_number z' -> z = z'.
Proof.
  intros H.
  assert (Hint : Some (Z.to_int z) = Some (Z.to_int z'))
    by (rewrite <- !template_number_parses; now rewrite H).
  injection Hint as Hint.
  rewrite <- (DecimalZ.of_to z), <- (DecimalZ.of_to z'). now rewrite Hint.
Qed.

Lemma string_length_append (a b : string) :
  String.length (a ++ b) = (String.length a + String.length b)%nat.
Proof.
  induction a as [| ch a IH]; cbn; [reflexivity | now rewrite IH].
Qed.

Lemma string_append_cancel_r (s a b : string) :
  (a ++ s)%string = (b ++ s)%string -> a = b.
Proof.
  revert b. induction a as [| ch a IH]; intros [| ch' b] H.
  - reflexivity.
  - apply (f_equal String.length) in H. cbn in H.
    rewrite string_length_append in H. lia.
  - apply (f_equal String.length) in H. cbn in H.
    rewrite string_length_append in H. lia.
  - cbn in H. injection H as -> H. f_equal. now apply IH.
Qed.

Lemma string_append_cancel_l (s a b : string) :
  (s ++ a)%string = (s ++ b)%string -> a = b.
Proof.
  induction s as [| ch s IH]; cbn; intros H; [exact H |].
  injection H as H. now apply IH.
Qed.

Lemma retrying_line_inj (r r' : Z) :
  retrying_line r = retrying_line r' -> r = r'.
Proof.
  rewrite !retrying_line_shape. intros H.
  apply string_append_cancel_l, string_append_cancel_r in H.
  apply template_number_inj in H. lia.
Qed.

Lemma connectDB_boot_delays envConfig (connector : nat -> connect_result)
  (retries : Z) :
  delays (trace (snd (connectDB envConfig connector retries boot))) =
  repeat RETRY_DELAY
    (attempts (trace (snd (connectDB envConfig connector retries boot))) - 1).
Proof.
  destruct (connectDB_boot_run envConfig connector retries)
    as (t & c & Hu & ->).
  cbn [snd trace]. eapply unfolds_delays; eauto.
Qed.

Lemma connectDB_boot_attempts_bound envConfig (connector : nat -> connect_result)
  (retries : Z) :
  (1 <= attempts (trace (snd (connectDB envConfig connector retries boot)))
     <= Z.to_nat retries + 1)%nat.
Proof.
  destruct (connectDB_boot_run envConfig connector retries)
    as (t & c & Hu & ->).
  cbn [snd trace]. eapply unfolds_attempts_bound; eauto.
Qed.

(** ** Further properties of [connectDB] *)

(** X1.  [connectDB] starts with a connection attempt, and every attempt
    of a run is a call of [mongoose.connect] with [envConfig.mongo.uri] and
    [envConfig.mongo.dbName]: no other store is ever contacted. *)
Theorem connectDB_connects_to_configured_store
  (envConfig : EnvConfig) (connector : nat -> connect_result) (retries : Z) :
  let t := trace (snd (connectDB envConfig connector retries boot)) in
  hd_error t =
    Some (MongooseConnect (uri (mongo envConfig)) (dbName (mongo envConfig))) /\
  forall target database,
    In (MongooseConnect target database) t ->
    target = uri (mongo envConfig) /\ database = dbName (mongo envConfig).
Proof.
  destruct (connectDB_boot_run envConfig connector retries)
    as (t & c & Hu & ->).
  cbn [snd trace]. split.
  - destruct (unfolds_starts_with_attempt _ _ _ _ _ _ Hu) as (t' & ->).
    reflexivity.
  - eapply unfolds_targets; eauto.
Qed.

Lemma connectDB_connects_to_configured_store_witness :
  In (MongooseConnect "mongodb://mongo:27017/app" "app")
     (trace (snd (connectDB sample_env unreachable 1 boot))) /\
  "mongodb://mongo:27017/app"%string = uri (mongo sample_env) /\
  "app"%string = dbName (mongo sample_env).
Proof.
  assert (Hin : In (MongooseConnect "mongodb://mongo:27017/app" "app")
                   (trace (snd (connectDB sample_env unreachable 1 boot))))
    by (vm_compute; left; reflexivity).
  split; [exact Hin |].
  exact (proj2 (connectDB_connects_to_configured_store
                  sample_env unreachable 1) _ _ Hin).
Defined.

(** X2.  What [connectDB] does depends on the process only through the
    outcomes of the calls it makes: started in any world, it completes as
    a fresh process does against the outcomes still to come, and it adds
    that run's events after the events already traced, which it keeps. *)
Theorem connectDB_ignores_history
  (envConfig : EnvConfig) (connector : nat -> connect_result)
  (retries : Z) (w : world) :
  let fresh :=
    connectDB envConfig (fun j => connector (calls w + j)%nat) retries boot in
  connectDB envConfig connector retries w =
  (fst fresh,
   {| calls := calls w + attempts (trace (snd fresh));
      trace := trace w ++ trace (snd fresh) |}).
Proof.
  intros fresh. subst fresh. rewrite connectDB_shift at 1. reflexivity.
Qed.

(** The integer view.  Failed attempts use up the counter one by one: when
    the first [a] attempts fail, [connectDB (a + b)] completes as
    [connectDB b] does against the outcomes from attempt [a + 1] on, after
    [a] more attempts and [a] more delays of [RETRY_DELAY]. *)
Lemma connectDB_failures_consume_budget
  (envConfig : EnvConfig) (connector : nat -> connect_result)
  (a : nat) (b : Z) :
  0 <= b ->
  (forall k, (k < a)%nat -> connector k <> Established) ->
  let whole := connectDB envConfig connector (Z.of_nat a + b) boot in
  let rest := connectDB envConfig (fun j => connector (a + j)%nat) b boot in
  fst whole = fst rest /\
  attempts (trace (snd whole)) = (a + attempts (trace (snd rest)))%nat /\
  delays (trace (snd whole)) =
    repeat RETRY_DELAY a ++ delays (trace (snd rest)).
Proof.
  intros Hb Hfail whole rest. subst whole rest.
  rewrite (connectDB_retry_rounds envConfig connector a (Z.of_nat a + b) boot)
    by (try lia; cbn; auto).
  replace (Z.of_nat a + b - Z.of_nat a) with b by lia.
  rewrite connectDB_shift.
  cbn [fst snd trace after boot calls app Nat.add].
  rewrite !retry_rounds_attempts.
  repeat split.
  - rewrite attempts_app, retry_rounds_attempts. reflexivity.
  - rewrite delays_app, retry_rounds_delays. reflexivity.
Qed.

(** X4.  Raising the counter never turns a success into a failure: when
    [connectDB r] returns and [r <= r'], [connectDB r'] returns too, after
    the same number of attempts and the same delays. *)
Theorem connectDB_budget_monotone
  (envConfig : EnvConfig) (connector : nat -> connect_result) (r r' : Z) :
  r <= r' ->
  fst (connectDB envConfig connector r boot) = Normal tt ->
  fst (connectDB envConfig connector r' boot) = Normal tt /\
  attempts (trace (snd (connectDB envConfig connector r' boot))) =
  attempts (trace (snd (connectDB envConfig connector r boot))) /\
  delays (trace (snd (connectDB envConfig connector r' boot))) =
  delays (trace (snd (connectDB envConfig connector r boot))).
Proof.
  intros Hle Hok.
  assert (Hok' : fst (connectDB envConfig connector r' boot) = Normal tt).
  { apply connectDB_returns_iff.
    apply connectDB_returns_iff in Hok as (k & Hk & He).
    exists k. split; [lia | exact He]. }
  assert (Hsame :
            attempts (trace (snd (connectDB envConfig connector r' boot))) =
            attempts (trace (snd (connectDB envConfig connector r boot)))).
  { destruct (connectDB_returns_at _ _ _ Hok) as (H1 & Hlast & Hbefore).
    destruct (connectDB_returns_at _ _ _ Hok') as (H1' & Hlast' & Hbefore').
    set (a := attempts (trace (snd (connectDB envConfig connector r boot))))
      in *.
    set (a' := attempts (trace (snd (connectDB envConfig connector r' boot))))
      in *.
    destruct (Nat.lt_trichotomy (a - 1) (a' - 1)) as [Hlt | [Heq | Hgt]].
    - exfalso. exact (Hbefore' _ Hlt Hlast).
    - lia.
    - exfalso. exact (Hbefore _ Hgt Hlast'). }
  repeat split; [exact Hok' | exact Hsame |].
  rewrite !connectDB_boot_delays, Hsame. reflexivity.
Qed.

Lemma connectDB_budget_monotone_witness :
  2 <= 5 /\
  fst (connectDB sample_env (reachable_at 3) 2 boot) = Normal tt /\
  fst (connectDB sample_env (reachable_at 3) 5 boot) = Normal tt /\
  attempts (trace (snd (connectDB sample_env (reachable_at 3) 5 boot))) =
  attempts (trace (snd (connectDB sample_env (reachable_at 3) 2 boot))).
Proof.
  split; [lia |]. split; [reflexivity |].
  destruct (connectDB_budget_monotone sample_env (reachable_at 3) 2 5)
    as (Hok & Hatt & _).
  - lia.
  - reflexivity.
  - split; [exact Hok | exact Hatt].
Defined.

(** The integer view.  The lines a run writes with [console.log] are, in
    order, one retry line per attempt but the last, numbered consecutively
    from [MAX_RETRIES - retries + 1], and then the success line if and only
    if the run returns. *)
Lemma connectDB_console_log_lines
  (envConfig : EnvConfig) (connector : nat -> connect_result) (retries : Z) :
  let run := connectDB envConfig connector retries boot in
  let t := trace (snd run) in
  stdout t =
  map (fun m =>
         ("Retrying connection... ("
            ++ template_number (MAX_RETRIES - retries + 1 + Z.of_nat m)
            ++ "/5)")%string)
      (seq 0 (attempts t - 1))
  ++ match fst run with
     | Normal _ => ["Connected to MongoDB"%string]
     | _ => []
     end.
Proof.
  destruct (connectDB_boot_run envConfig connector retries)
    as (t & c & Hu & ->).
  cbn [fst snd trace].
  rewrite (unfolds_stdout_shape _ _ _ _ _ _ Hu). f_equal.
  apply map_ext. intros m. rewrite retrying_line_shape.
  unfold MAX_RETRIES. do 3 f_equal. lia.
Qed.



(** X7.  A run that stops the process calls [process.exit] exactly once,
    with status 1, as its last action; a run that returns never calls it
    and ends with the success line. *)
Theorem connectDB_exits_once
  (envConfig : EnvConfig) (connector : nat -> connect_result) (retries : Z) :
  let run := connectDB envConfig connector retries boot in
  let t := trace (snd run) in
  match fst run with
  | Halt _ =>
      exits t = [1] /\ last t (attempt envConfig) = ProcessExit 1
  | _ =>
      exits t = [] /\
      last t (attempt envConfig) = ConsoleLog "Connected to MongoDB"
  end.
Proof.
  destruct (connectDB_boot_run envConfig connector retries)
    as (t & c & Hu & ->).
  cbn [fst snd trace]. exact (unfolds_exits _ _ _ _ _ _ Hu).
Qed.

(** The integer view.  The delays of a run add up to [RETRY_DELAY] times the
    number of attempts but one, which is at most [RETRY_DELAY * retries]
    (zero for a counter below zero): the default call waits 25 seconds at
    most. *)
Lemma connectDB_total_delay_bound
  (envConfig : EnvConfig) (connector : nat -> connect_result) (retries : Z) :
  let t := trace (snd (connectDB envConfig connector retries boot)) in
  total_delay t = RETRY_DELAY * (Z.of_nat (attempts t) - 1) /\
  0 <= total_delay t <= RETRY_DELAY * Z.max 0 retries /\
  total_delay (trace (snd (connectDB_default envConfig connector boot)))
    <= 25000.
Proof.
  assert (Hsum : forall r,
            total_delay (trace (snd (connectDB envConfig connector r boot))) =
            RETRY_DELAY *
            (Z.of_nat (attempts (trace (snd (connectDB envConfig connector r
                                               boot)))) - 1)).
  { intros r. unfold total_delay.
    rewrite connectDB_boot_delays, total_delay_repeat.
    pose proof (connectDB_boot_attempts_bound envConfig connector r) as Hb.
    f_equal. lia. }
  cbv zeta. split; [apply Hsum |]. split.
  - rewrite Hsum.
    pose proof (connectDB_boot_attempts_bound envConfig connector retries)
      as Hb.
    unfold RETRY_DELAY. lia.
  - unfold connectDB_default. rewrite Hsum.
    pose proof (connectDB_boot_attempts_bound envConfig connector MAX_RETRIES)
      as Hb.
    unfold RETRY_DELAY, MAX_RETRIES in *. lia.
Qed.

(** The integer view.  The retry line identifies the counter: two counters
    with the same retry line are equal.  Hence no line is written twice to
    [console.log] in a run. *)
Lemma connectDB_log_lines_distinct
  (envConfig : EnvConfig) (connector : nat -> connect_result) (retries : Z) :
  (forall r r', retrying_line r = retrying_line r' -> r = r') /\
  NoDup (stdout (trace (snd (connectDB envConfig connector retries boot)))).
Proof.
  split; [exact retrying_line_inj |].
  destruct (connectDB_boot_run envConfig connector retries)
    as (t & c & Hu & ->).
  cbn [snd trace]. rewrite (unfolds_stdout_shape _ _ _ _ _ _ Hu).
  apply NoDup_app.
  - apply NoDup_map_NoDup_ForallPairs; [| apply seq_NoDup].
    intros m m' _ _ H. apply retrying_line_inj in H. lia.
  - destruct c; repeat constructor; intros [].
  - intros line Hin Hin'. apply in_map_iff in Hin as (m & <- & _).
    destruct c; cbn in Hin'; try contradiction.
    destruct Hin' as [H | []].
    discriminate H.
Qed.

(** The integer view.  [connectDB] returns exactly when one of the first
    [retries + 1] outcomes of the connector (the first one alone, for a
    counter below zero) is a success, and stops the process with status 1
    exactly when all of them are failures. *)
Lemma connectDB_returns_iff_some_success
  (envConfig : EnvConfig) (connector : nat -> connect_result) (retries : Z) :
  (fst (connectDB envConfig connector retries boot) = Normal tt <->
   exists k, (k <= Z.to_nat retries)%nat /\ connector k = Established) /\
  (fst (connectDB envConfig connector retries boot) = Halt 1 <->
   forall k, (k <= Z.to_nat retries)%nat -> connector k <> Established).
Proof.
  split; [apply connectDB_returns_iff |].
  pose proof (connectDB_returns_iff envConfig connector retries) as Hiff.
  destruct (connectDB_boot_run envConfig connector retries)
    as (t & c & Hu & Hrun).
  rewrite Hrun in *. cbn [fst] in *.
  destruct (unfolds_completion _ _ _ _ _ _ Hu) as [-> | ->]; split.
  - discriminate.
  - intros Hall. exfalso.
    destruct (proj1 Hiff eq_refl) as (k & Hk & He). exact (Hall k Hk He).
  - intros _ k Hk He.
    assert (Habs : @Halt unit 1 = Normal tt)
      by (apply Hiff; exists k; split; assumption).
    discriminate Habs.
  - reflexivity.
Qed.

(** The integer view.  Whatever positive counter is passed, a run that uses
    it all up announces its last retry as (5/5): the last line of
    [console.log] is "Retrying connection... (5/5)". *)
Lemma connectDB_last_retry_line
  (envConfig : EnvConfig) (connector : nat -> connect_result) (retries : Z) :
  1 <= retries ->
  fst (connectDB envConfig connector retries boot) = Halt 1 ->
  last (stdout (trace (snd (connectDB envConfig connector retries boot))))
       ""%string
  = "Retrying connection... (5/5)"%string.
Proof.
  intros Hr Hhalt.
  destruct (connectDB_boot_run envConfig connector retries)
    as (t & c & Hu & Hrun).
  rewrite Hrun in *. cbn [fst snd trace] in *. subst c.
  rewrite (unfolds_stdout_shape _ _ _ _ _ _ Hu), app_nil_r.
  destruct (unfolds_halts _ _ _ _ _ _ Hu) as (_ & _ & Hcount & _).
  specialize (Hcount ltac:(lia)).
  replace (attempts t - 1)%nat with (S (Z.to_nat retries - 1)) by lia.
  rewrite seq_S, map_app. cbn [map]. rewrite last_last. cbn [Nat.add].
  replace (retries - Z.of_nat (Z.to_nat retries - 1)) with 1 by lia.
  reflexivity.
Qed.

(** ** Arithmetic of numbers on the integers up to 2^53 *)

Lemma digits2_pos_iter (q p : positive) :
  digits2_pos (Pos.iter xO q p) = (digits2_pos q + p)%positive.
Proof.
  induction p as [| p IH] using Pos.peano_ind.
  - cbn. lia.
  - rewrite Pos.iter_succ. cbn [digits2_pos]. rewrite IH. lia.
Qed.

Lemma Zpos_iter_xO (q p : positive) :
  Zpos (Pos.iter xO q p) = Zpos q * 2 ^ Zpos p.
Proof.
  induction p as [| p IH] using Pos.peano_ind.
  - cbn. lia.
  - rewrite Pos.iter_succ.
    change (Zpos (Pos.iter xO q p)~0) with (2 * Zpos (Pos.iter xO q p)).
    rewrite IH, Pos2Z.inj_succ, Z.pow_succ_r by lia. lia.
Qed.

Lemma pos_shift_cases (m p : positive) (k : Z) :
  0 <= k -> Zpos m = Zpos p * 2 ^ k ->
  (k = 0 /\ m = p) \/ (exists kp, k = Zpos kp /\ m = Pos.iter xO p kp).
Proof.
  intros Hk H. destruct k as [| kp | kp]; [left | right | lia].
  - split; [reflexivity |]. rewrite Z.pow_0_r, Z.mul_1_r in H. now injection H.
  - exists kp. split; [reflexivity |].
    apply Pos2Z.inj. now rewrite Zpos_iter_xO.
Qed.

Lemma digits2_pos_bounds (p : positive) :
  2 ^ (Zpos (digits2_pos p) - 1) <= Zpos p < 2 ^ Zpos (digits2_pos p).
Proof.
  induction p as [p IH | p IH |]; cbn [digits2_pos].
  - rewrite Pos2Z.inj_succ. change (Zpos p~1) with (2 * Zpos p + 1).
    replace (Z.succ (Zpos (digits2_pos p)) - 1)
      with (Z.succ (Zpos (digits2_pos p) - 1)) by lia.
    rewrite !Z.pow_succ_r by lia.
    remember (2 ^ (Zpos (digits2_pos p) - 1)) as lo.
    remember (2 ^ Zpos (digits2_pos p)) as hi. clear Heqlo Heqhi. lia.
  - rewrite Pos2Z.inj_succ. change (Zpos p~0) with (2 * Zpos p).
    replace (Z.succ (Zpos (digits2_pos p)) - 1)
      with (Z.succ (Zpos (digits2_pos p) - 1)) by lia.
    rewrite !Z.pow_succ_r by lia.
    remember (2 ^ (Zpos (digits2_pos p) - 1)) as lo.
    remember (2 ^ Zpos (digits2_pos p)) as hi. clear Heqlo Heqhi. lia.
  - cbn. lia.
Qed.

Lemma digits2_pos_le_53 (p : positive) :
  Zpos p < 2 ^ 53 -> Zpos (digits2_pos p) <= 53.
Proof.
  intros H. pose proof (digits2_pos_bounds p) as [Hlo _].
  destruct (Z_le_gt_dec (Zpos (digits2_pos p)) 53) as [Hle | Hgt]; [exact Hle |].
  exfalso.
  assert (2 ^ 53 <= 2 ^ (Zpos (digits2_pos p) - 1))
    by (apply Z.pow_le_mono_r; lia).
  lia.
Qed.

Lemma iter_pos_shr_exact (p q : positive) :
  iter_pos shr_1 p
    {| shr_m := Zpos (Pos.iter xO q p); shr_r := false; shr_s := false |} =
  {| shr_m := Zpos q; shr_r := false; shr_s := false |}.
Proof.
  revert q. induction p as [p IH | p IH |]; intros q; cbn [iter_pos Pos.iter].
  - cbn [shr_1 orb]. now rewrite !IH.
  - now rewrite !IH.
  - reflexivity.
Qed.

Lemma fexp_normal (d : Z) : 1 <= d -> fexp 53 1024 d = d - 53.
Proof. intros H. unfold fexp, emin. lia. Qed.

Lemma round_aux_normal (s : bool) (q : positive) (e : Z) :
  digits2_pos q = 53%positive ->
  -1074 <= e <= 971 ->
  binary_round_aux 53 1024 s (Zpos q) e loc_Exact = S754_finite s q e.
Proof.
  intros Hd He. unfold binary_round_aux, shr_fexp.
  cbn [Zdigits2 shr_record_of_loc]. rewrite Hd.
  unfold fexp, emin.
  replace (Z.max (53 + e - 53) (3 - 1024 - 53) - e) with 0 by lia.
  cbn [shr shr_m loc_of_shr_record round_nearest_even Zdigits2
       shr_record_of_loc].
  rewrite Hd.
  replace (Z.max (53 + e - 53) (3 - 1024 - 53) - e) with 0 by lia.
  cbn [shr shr_m].
  replace (e <=? 1024 - 53) with true by (symmetry; apply Z.leb_le; lia).
  reflexivity.
Qed.

Lemma round_aux_shift (s : bool) (q p : positive) (e : Z) :
  digits2_pos q = 53%positive ->
  -1074 <= e -> e + Zpos p <= 971 ->
  binary_round_aux 53 1024 s (Zpos (Pos.iter xO q p)) e loc_Exact =
  S754_finite s q (e + Zpos p).
Proof.
  intros Hd He Hp. unfold binary_round_aux, shr_fexp.
  cbn [Zdigits2 shr_record_of_loc]. rewrite digits2_pos_iter, Hd.
  unfold fexp, emin.
  replace (Z.max (Zpos (53 + p) + e - 53) (3 - 1024 - 53) - e) with (Zpos p)
    by lia.
  cbn [shr]. rewrite iter_pos_shr_exact.
  cbn [shr_m loc_of_shr_record round_nearest_even Zdigits2 shr_record_of_loc].
  rewrite Hd.
  replace (Z.max (53 + (e + Zpos p) - 53) (3 - 1024 - 53) - (e + Zpos p))
    with 0 by lia.
  cbn [shr shr_m].
  replace (e + Zpos p <=? 1024 - 53) with true
    by (symmetry; apply Z.leb_le; lia).
  reflexivity.
Qed.

Lemma shl_align_value (m : positive) (e e' : Z) :
  e' <= e ->
  Zpos (fst (shl_align m e e')) = Zpos m * 2 ^ (e - e') /\
  snd (shl_align m e e') = e'.
Proof.
  intros H. unfold shl_align. destruct (e' - e) as [| d | d] eqn:E.
  - cbn [fst snd]. replace (e - e') with 0 by lia. rewrite Z.pow_0_r.
    split; lia.
  - lia.
  - cbn [fst snd]. rewrite Zpos_iter_xO. replace (e - e') with (Zpos d) by lia.
    split; reflexivity.
Qed.

Lemma normal_mantissa_value (p : positive) :
  Zpos (digits2_pos p) <= 53 ->
  Zpos (normal_mantissa p) = Zpos p * 2 ^ (53 - Zpos (digits2_pos p)).
Proof.
  intros H. unfold normal_mantissa.
  destruct (shl_align_value p 0 (Zpos (digits2_pos p) - 53) ltac:(lia))
    as [-> _].
  f_equal. f_equal. lia.
Qed.

Lemma normal_mantissa_digits (p : positive) :
  Zpos (digits2_pos p) <= 53 ->
  digits2_pos (normal_mantissa p) = 53%positive.
Proof.
  intros H. unfold normal_mantissa, shl_align.
  destruct (Zpos (digits2_pos p) - 53 - 0) as [| d | d] eqn:E; cbn [fst].
  - lia.
  - lia.
  - rewrite digits2_pos_iter. lia.
Qed.

(** Rounding [p * 2^k] at exponent [-k] gives the double of [p]. *)
Lemma binary_round_exact (s : bool) (m p : positive) (k : Z) :
  0 <= k <= 1000 ->
  Zpos m = Zpos p * 2 ^ k ->
  Zpos (digits2_pos p) <= 53 ->
  binary_round 53 1024 s m (- k) = normal s p.
Proof.
  intros Hk Hm Hd.
  pose proof (normal_mantissa_value p Hd) as Hv.
  pose proof (normal_mantissa_digits p Hd) as Hn.
  assert (Hdm : Zpos (digits2_pos m) = Zpos (digits2_pos p) + k).
  { destruct (pos_shift_cases m p k ltac:(lia) Hm)
      as [[-> ->] | (kp & -> & ->)]; [lia |].
    rewrite digits2_pos_iter. lia. }
  unfold binary_round. rewrite Hdm, fexp_normal by lia.
  unfold shl_align, normal.
  destruct (Zpos (digits2_pos p) + k + - k - 53 - - k) as [| d | d] eqn:E.
  - (* the mantissa already has 53 bits *)
    assert (m = normal_mantissa p) as ->.
    { apply Pos2Z.inj. rewrite Hv, Hm. f_equal. f_equal. lia. }
    rewrite round_aux_normal by (assumption || lia).
    f_equal. lia.
  - (* more than 53 bits, the low ones being zero *)
    assert (m = Pos.iter xO (normal_mantissa p) d) as ->.
    { apply Pos2Z.inj. rewrite Zpos_iter_xO, Hv, Hm.
      rewrite <- Z.mul_assoc, <- Z.pow_add_r by lia.
      f_equal. f_equal. lia. }
    rewrite round_aux_shift by (assumption || lia).
    f_equal. lia.
  - (* fewer than 53 bits *)
    assert (Pos.iter xO m d = normal_mantissa p) as ->.
    { apply Pos2Z.inj. rewrite Zpos_iter_xO, Hv, Hm.
      rewrite <- Z.mul_assoc, <- Z.pow_add_r by lia.
      f_equal. f_equal. lia. }
    rewrite round_aux_normal by (assumption || lia).
    f_equal. lia.
Qed.

Lemma of_Z_pos (p : positive) :
  Zpos p < 2 ^ 53 -> of_Z (Zpos p) = normal false p.
Proof.
  intros H. unfold of_Z, binary_normalize, js_prec, js_emax.
  apply (binary_round_exact false p p 0); [lia | | now apply digits2_pos_le_53].
  rewrite Z.pow_0_r. lia.
Qed.

Lemma of_Z_neg (p : positive) :
  Zpos p < 2 ^ 53 -> of_Z (Zneg p) = normal true p.
Proof.
  intros H. unfold of_Z, binary_normalize, js_prec, js_emax.
  apply (binary_round_exact true p p 0); [lia | | now apply digits2_pos_le_53].
  rewrite Z.pow_0_r. lia.
Qed.

Lemma normalize_exact (c k : Z) :
  Z.abs c < 2 ^ 53 ->
  0 <= k <= 1000 ->
  binary_normalize 53 1024 (c * 2 ^ k) (- k) false = of_Z c.
Proof.
  intros Hc Hk.
  assert (Hpow : 0 < 2 ^ k) by (apply Z.pow_pos_nonneg; lia).
  destruct c as [| p | p].
  - reflexivity.
  - rewrite of_Z_pos by lia.
    destruct (Zpos p * 2 ^ k) as [| m | m] eqn:E; try lia.
    cbn [binary_normalize].
    apply binary_round_exact; [lia | now rewrite E |].
    apply digits2_pos_le_53. lia.
  - rewrite of_Z_neg by lia.
    destruct (Zneg p * 2 ^ k) as [| m | m] eqn:E; try lia.
    cbn [binary_normalize].
    apply binary_round_exact; [lia | | apply digits2_pos_le_53; lia].
    lia.
Qed.

Lemma of_Z_signed (s : bool) (p : positive) :
  Zpos p < 2 ^ 53 -> of_Z (signed s p) = normal s p.
Proof.
  intros H. destruct s; cbn [signed cond_Zopp Z.opp].
  - now apply of_Z_neg.
  - now apply of_Z_pos.
Qed.

Lemma cond_Zopp_mul (s : bool) (x y : Z) :
  cond_Zopp s (x * y) = cond_Zopp s x * y.
Proof. destruct s; cbn; lia. Qed.

(** The mantissa of a double below 2^53, moved to the common exponent. *)
Lemma aligned_value (s : bool) (p : positive) (ez : Z) :
  Zpos (digits2_pos p) <= 53 ->
  ez <= Zpos (digits2_pos p) - 53 ->
  cond_Zopp s
    (Zpos (fst (shl_align (normal_mantissa p) (Zpos (digits2_pos p) - 53) ez)))
  = signed s p * 2 ^ (- ez).
Proof.
  intros Hd Hez.
  destruct (shl_align_value (normal_mantissa p) (Zpos (digits2_pos p) - 53) ez
              Hez) as [-> _].
  rewrite normal_mantissa_value by assumption.
  rewrite <- Z.mul_assoc, <- Z.pow_add_r by lia.
  unfold signed. rewrite cond_Zopp_mul. do 2 f_equal. lia.
Qed.

Lemma js_add_normal (sa sb : bool) (pa pb : positive) :
  Zpos pa < 2 ^ 53 -> Zpos pb < 2 ^ 53 ->
  Z.abs (signed sa pa + signed sb pb) < 2 ^ 53 ->
  js_add (normal sa pa) (normal sb pb) = of_Z (signed sa pa + signed sb pb).
Proof.
  intros Ha Hb Hc.
  pose proof (digits2_pos_le_53 pa Ha) as Hda.
  pose proof (digits2_pos_le_53 pb Hb) as Hdb.
  unfold js_add, js_prec, js_emax, normal. cbn [SFadd].
  set (ez := Z.min (Zpos (digits2_pos pa) - 53) (Zpos (digits2_pos pb) - 53)).
  rewrite (aligned_value sa pa ez) by lia.
  rewrite (aligned_value sb pb ez) by lia.
  rewrite <- Z.mul_add_distr_r.
  replace ez with (- - ez) at 2 by lia.
  apply normalize_exact; lia.
Qed.

Lemma js_sub_normal (sa sb : bool) (pa pb : positive) :
  Zpos pa < 2 ^ 53 -> Zpos pb < 2 ^ 53 ->
  Z.abs (signed sa pa - signed sb pb) < 2 ^ 53 ->
  js_sub (normal sa pa) (normal sb pb) = of_Z (signed sa pa - signed sb pb).
Proof.
  intros Ha Hb Hc.
  pose proof (digits2_pos_le_53 pa Ha) as Hda.
  pose proof (digits2_pos_le_53 pb Hb) as Hdb.
  unfold js_sub, js_prec, js_emax, normal. cbn [SFsub].
  set (ez := Z.min (Zpos (digits2_pos pa) - 53) (Zpos (digits2_pos pb) - 53)).
  rewrite (aligned_value sa pa ez) by lia.
  rewrite (aligned_value sb pb ez) by lia.
  rewrite <- Z.mul_sub_distr_r.
  replace ez with (- - ez) at 2 by lia.
  apply normalize_exact; lia.
Qed.

Lemma Z_as_signed (z : Z) :
  z <> 0 -> exists s p, z = signed s p /\ Zpos p = Z.abs z.
Proof.
  destruct z as [| p | p]; intros H; [congruence | |].
  - exists false, p. split; reflexivity.
  - exists true, p. split; reflexivity.
Qed.

(** Addition and subtraction of integers are exact below 2^53. *)
Lemma js_add_integer (a b : Z) :
  Z.abs a < 2 ^ 53 -> Z.abs b < 2 ^ 53 -> Z.abs (a + b) < 2 ^ 53 ->
  js_add (of_Z a) (of_Z b) = of_Z (a + b).
Proof.
  intros Ha Hb Hc.
  destruct (Z.eq_dec a 0) as [-> | Hna].
  { rewrite Z.add_0_l. destruct b as [| p | p]; [reflexivity | |].
    - rewrite of_Z_pos by lia. reflexivity.
    - rewrite of_Z_neg by lia. reflexivity. }
  destruct (Z.eq_dec b 0) as [-> | Hnb].
  { rewrite Z.add_0_r. destruct a as [| p | p]; [congruence | |].
    - rewrite of_Z_pos by lia. reflexivity.
    - rewrite of_Z_neg by lia. reflexivity. }
  destruct (Z_as_signed a Hna) as (sa & pa & -> & Hpa).
  destruct (Z_as_signed b Hnb) as (sb & pb & -> & Hpb).
  rewrite !of_Z_signed by lia. apply js_add_normal; lia.
Qed.

Lemma js_sub_integer (a b : Z) :
  Z.abs a < 2 ^ 53 -> Z.abs b < 2 ^ 53 -> Z.abs (a - b) < 2 ^ 53 ->
  js_sub (of_Z a) (of_Z b) = of_Z (a - b).
Proof.
  intros Ha Hb Hc.
  destruct (Z.eq_dec b 0) as [-> | Hnb].
  { rewrite Z.sub_0_r. destruct a as [| p | p]; [reflexivity | |].
    - rewrite of_Z_pos by lia. reflexivity.
    - rewrite of_Z_neg by lia. reflexivity. }
  destruct (Z.eq_dec a 0) as [-> | Hna].
  { destruct b as [| p | p]; [congruence | |]; cbn [Z.sub Z.add Z.opp].
    - rewrite of_Z_pos, of_Z_neg by lia. reflexivity.
    - rewrite of_Z_pos, of_Z_neg by lia. reflexivity. }
  destruct (Z_as_signed a Hna) as (sa & pa & -> & Hpa).
  destruct (Z_as_signed b Hnb) as (sb & pb & -> & Hpb).
  rewrite !of_Z_signed by lia. apply js_sub_normal; lia.
Qed.

Lemma js_gt_zero_integer (z : Z) :
  Z.abs z <= 2 ^ 53 -> js_gt (of_Z z) js_zero = (0 <? z).
Proof.
  intros H.
  destruct (Z.eq_dec (Z.abs z) (2 ^ 53)) as [Heq | Hne].
  { destruct (Z.abs_eq_or_opp z) as [E | E]; rewrite E in Heq.
    - subst z. vm_compute. reflexivity.
    - assert (z = - 2 ^ 53) as -> by lia. vm_compute. reflexivity. }
  destruct z as [| p | p].
  - reflexivity.
  - rewrite of_Z_pos by lia. reflexivity.
  - rewrite of_Z_neg by lia. reflexivity.
Qed.

(** Line 19: [retries - 1] is exact for the integers from 1 to 2^53. *)
Lemma js_sub_one_integer (z : Z) :
  1 <= z <= 2 ^ 53 -> js_sub (of_Z z) js_one = of_Z (z - 1).
Proof.
  intros H. destruct (Z.eq_dec z (2 ^ 53)) as [-> | Hne].
  - vm_compute. reflexivity.
  - apply js_sub_integer; lia.
Qed.

(** Line 17: [MAX_RETRIES - retries + 1] is exact for the same counters. *)
Lemma js_index_integer (z : Z) :
  1 <= z <= 2 ^ 53 ->
  js_add (js_sub (of_Z 5) (of_Z z)) js_one = of_Z (5 - z + 1).
Proof.
  intros H. destruct (Z.eq_dec z (2 ^ 53)) as [-> | Hne].
  - vm_compute. reflexivity.
  - rewrite js_sub_integer by lia. apply js_add_integer; lia.
Qed.

Lemma to_Z_normal (s : bool) (p : positive) :
  Zpos p < 2 ^ 53 -> to_Z (normal s p) = Some (signed s p).
Proof.
  intros H. pose proof (digits2_pos_le_53 p H) as Hd.
  pose proof (normal_mantissa_value p Hd) as Hv.
  unfold normal, to_Z.
  destruct (Zpos (digits2_pos p) - 53) as [| k | k] eqn:E.
  - replace (53 - Zpos (digits2_pos p)) with 0 in Hv by lia.
    rewrite Z.pow_0_r, Z.mul_1_r in Hv. now rewrite Hv.
  - lia.
  - replace (53 - Zpos (digits2_pos p)) with (Zpos k) in Hv by lia.
    assert (Hpow : 0 < 2 ^ Zpos k) by (apply Z.pow_pos_nonneg; lia).
    rewrite Hv, Z_mod_mult, Z_div_mult by lia. reflexivity.
Qed.

Lemma to_Z_of_Z (z : Z) :
  Z.abs z <= 2 ^ 53 -> to_Z (of_Z z) = Some z.
Proof.
  intros H.
  destruct (Z.eq_dec (Z.abs z) (2 ^ 53)) as [Heq | Hne].
  { destruct (Z.abs_eq_or_opp z) as [E | E]; rewrite E in Heq.
    - subst z. vm_compute. reflexivity.
    - assert (z = - 2 ^ 53) as -> by lia. vm_compute. reflexivity. }
  destruct (Z.eq_dec z 0) as [-> | Hnz]; [reflexivity |].
  destruct (Z_as_signed z Hnz) as (s & p & -> & Hp).
  rewrite of_Z_signed by lia. apply to_Z_normal. lia.
Qed.

Lemma integer_toString_renders : renders_integers integer_toString.
Proof.
  intros z Hz. unfold integer_toString. rewrite to_Z_of_Z by lia. reflexivity.
Qed.

(** ** One pass through the body, on numbers *)

Section StepsOnNumbers.

Variable toString : number -> string.
Variable envConfig : EnvConfig.
Variable connector : nat -> connect_result.

Ltac run_body_js H :=
  cbn [connectDB_js];
  unfold try_catch, bind, mongoose_connect, ret; cbn [calls trace];
  rewrite H; cbv beta iota zeta;
  unfold console_log, console_error, setTimeout, process_exit;
  cbv beta iota zeta.

Ltac same_world_js :=
  unfold after, record, connected_round, retry_round_js, fatal_round,
    attempts;
  cbn [calls trace filter is_attempt attempt List.length];
  repeat rewrite <- app_assoc; cbn [app];
  repeat f_equal; lia.

Lemma connectDB_js_connected (fuel : nat) (retries : number) (w : world) :
  connector (calls w) = Established ->
  connectDB_js toString envConfig connector (S fuel) retries w =
  (Normal (Some tt), after w (connected_round envConfig)).
Proof.
  intros H. run_body_js H. same_world_js.
Qed.

Lemma connectDB_js_exhausted (fuel : nat) (retries : number) (w : world)
  (e : js_error) :
  connector (calls w) = Refused e ->
  js_gt retries js_zero = false ->
  connectDB_js toString envConfig connector (S fuel) retries w =
  (Halt 1, after w (fatal_round envConfig e)).
Proof.
  intros H Hgt. run_body_js H. rewrite Hgt. cbv beta iota zeta.
  same_world_js.
Qed.

Lemma connectDB_js_retry (fuel : nat) (retries : number) (w : world)
  (e : js_error) :
  connector (calls w) = Refused e ->
  js_gt retries js_zero = true ->
  connectDB_js toString envConfig connector (S fuel) retries w =
  connectDB_js toString envConfig connector fuel (js_sub retries js_one)
    (after w (retry_round_js toString envConfig retries e)).
Proof.
  intros H Hgt. run_body_js H. rewrite Hgt. cbv beta iota zeta.
  f_equal. same_world_js.
Qed.

End StepsOnNumbers.

(** ** The shape of every run on numbers *)

Section RunsOnNumbers.

Variable toString : number -> string.
Variable envConfig : EnvConfig.
Variable connector : nat -> connect_result.

Lemma retry_rounds_js_attempts j retries i :
  attempts (retry_rounds_js toString envConfig connector j retries i) = j.
Proof.
  revert retries i. induction j as [| j IH]; intros retries i.
  - reflexivity.
  - cbn [retry_rounds_js]. rewrite attempts_app, IH. reflexivity.
Qed.

Lemma retry_rounds_js_delays j retries i :
  delays (retry_rounds_js toString envConfig connector j retries i) =
  repeat RETRY_DELAY j.
Proof.
  revert retries i. induction j as [| j IH]; intros retries i.
  - reflexivity.
  - cbn [retry_rounds_js]. rewrite delays_app, IH. reflexivity.
Qed.

Lemma retry_rounds_js_exits j retries i :
  exits (retry_rounds_js toString envConfig connector j retries i) = [].
Proof.
  revert retries i. induction j as [| j IH]; intros retries i.
  - reflexivity.
  - cbn [retry_rounds_js]. rewrite exits_app, IH. reflexivity.
Qed.

Lemma retry_rounds_js_stdout j retries i :
  stdout (retry_rounds_js toString envConfig connector j retries i) =
  map (fun k => retrying_line_js toString (js_countdown k retries)) (seq 0 j).
Proof.
  revert retries i. induction j as [| j IH]; intros retries i.
  - reflexivity.
  - cbn [retry_rounds_js]. rewrite stdout_app, IH.
    cbn [seq map]. rewrite <- seq_shift, map_map. reflexivity.
Qed.

Lemma retry_rounds_js_at_attempt j retries i :
  at_attempt (retry_rounds_js toString envConfig connector j retries i).
Proof.
  destruct j; cbn; trivial.
Qed.

Lemma quiet_at_attempt (t : list event) : at_attempt t -> quiet t = [].
Proof.
  destruct t as [| [] t]; cbn; trivial; discriminate.
Qed.

Lemma at_attempt_app (t u : list event) :
  at_attempt t -> at_attempt u -> at_attempt (t ++ u).
Proof.
  destruct t; cbn; trivial.
Qed.

(** One delay of [RETRY_DELAY] follows each retried attempt, before the
    next attempt or the cut. *)
Lemma retry_rounds_js_pauses j retries i (tail : list event) :
  at_attempt tail ->
  pauses (retry_rounds_js toString envConfig connector j retries i ++ tail) =
  repeat [RETRY_DELAY] j ++ pauses tail.
Proof.
  intros Htail. revert retries i. induction j as [| j IH]; intros retries i.
  - reflexivity.
  - cbn [retry_rounds_js retry_round_js app pauses quiet attempt repeat].
    rewrite IH.
    rewrite quiet_at_attempt
      by (apply at_attempt_app; [apply retry_rounds_js_at_attempt | exact Htail]).
    reflexivity.
Qed.

(** Every run cut after [fuel] passes is [j] retried failures followed by
    nothing (the cut), by a success, or by a failure with no retry left. *)
Lemma connectDB_js_shape (fuel : nat) (retries : number) (w : world) :
  exists j,
    (j <= fuel)%nat /\
    (forall k, (k < j)%nat ->
       connector (calls w + k)%nat <> Established /\
       js_gt (js_countdown k retries) js_zero = true) /\
    ((j = fuel /\
      connectDB_js toString envConfig connector fuel retries w =
      (Normal None,
       after w (retry_rounds_js toString envConfig connector j retries
                  (calls w))))
     \/
     ((j < fuel)%nat /\
      connector (calls w + j)%nat = Established /\
      connectDB_js toString envConfig connector fuel retries w =
      (Normal (Some tt),
       after w (retry_rounds_js toString envConfig connector j retries
                  (calls w)
                ++ connected_round envConfig)))
     \/
     ((j < fuel)%nat /\
      connector (calls w + j)%nat <> Established /\
      js_gt (js_countdown j retries) js_zero = false /\
      connectDB_js toString envConfig connector fuel retries w =
      (Halt 1,
       after w (retry_rounds_js toString envConfig connector j retries
                  (calls w)
                ++ fatal_round envConfig
                     (reason_of (connector (calls w + j)%nat)))))).
Proof.
  revert retries w. induction fuel as [| fuel IH]; intros retries w.
  - exists 0%nat. split; [lia |]. split; [intros k Hk; lia |].
    left. split; [reflexivity |]. cbn [connectDB_js retry_rounds_js].
    unfold ret. now rewrite after_nil.
  - destruct (connector (calls w)) as [| e] eqn:Hc.
    + exists 0%nat. split; [lia |]. split; [intros k Hk; lia |].
      right; left. rewrite Nat.add_0_r. split; [lia |]. split; [exact Hc |].
      now apply connectDB_js_connected.
    + destruct (js_gt retries js_zero) eqn:Hgt.
      * destruct (IH (js_sub retries js_one)
                    (after w (retry_round_js toString envConfig retries e)))
          as (j & Hj & Hfail & Hend).
        assert (Hcalls :
                  calls (after w (retry_round_js toString envConfig retries e))
                  = S (calls w)) by (cbn; lia).
        rewrite Hcalls in *.
        assert (Hround :
                  forall tail,
                    after (after w (retry_round_js toString envConfig retries e))
                      (retry_rounds_js toString envConfig connector j
                         (js_sub retries js_one) (S (calls w)) ++ tail)
                    = after w
                        (retry_rounds_js toString envConfig connector (S j)
                           retries (calls w) ++ tail)).
        { intros tail. rewrite after_app. cbn [retry_rounds_js].
          rewrite Hc. cbn [reason_of]. now rewrite <- app_assoc. }
        exists (S j). split; [lia |]. split.
        { intros k Hk. destruct k as [| k].
          - rewrite Nat.add_0_r, Hc. split; [discriminate | exact Hgt].
          - replace (calls w + S k)%nat with (S (calls w) + k)%nat by lia.
            cbn [js_countdown]. apply Hfail. lia. }
        rewrite (connectDB_js_retry _ _ _ fuel retries w e Hc Hgt).
        replace (calls w + S j)%nat with (S (calls w) + j)%nat by lia.
        destruct Hend as [(Hcut & Hrun) | [(Hlt & Hok & Hrun) |
                                           (Hlt & Hno & Hle & Hrun)]].
        -- left. split; [lia |]. rewrite Hrun.
           rewrite <- (app_nil_r (retry_rounds_js _ _ _ j _ _)).
           rewrite Hround. now rewrite app_nil_r.
        -- right; left. split; [lia |]. split; [exact Hok |].
           rewrite Hrun. now rewrite Hround.
        -- right; right. split; [lia |]. split; [exact Hno |].
           split; [exact Hle |]. rewrite Hrun. now rewrite Hround.
      * exists 0%nat. split; [lia |]. split; [intros k Hk; lia |].
        right; right. rewrite Nat.add_0_r, Hc. split; [lia |].
        split; [discriminate |]. split; [exact Hgt |].
        now apply connectDB_js_exhausted.
Qed.

(** A counter that the subtraction of line 19 leaves unchanged is never
    used up: against failures only, the run is cut at every fuel. *)
Lemma connectDB_js_stalls (retries : number) :
  js_gt retries js_zero = true ->
  js_sub retries js_one = retries ->
  (forall i, connector i <> Established) ->
  forall fuel w,
    connectDB_js toString envConfig connector fuel retries w =
    (Normal None,
     after w (retry_rounds_js toString envConfig connector fuel retries
                (calls w))).
Proof.
  intros Hgt Hsub Hfail fuel. induction fuel as [| fuel IH]; intros w.
  - cbn [connectDB_js retry_rounds_js]. unfold ret. now rewrite after_nil.
  - pose proof (refused_reason connector (calls w) (Hfail _)) as Hc.
    rewrite (connectDB_js_retry _ _ _ fuel retries w _ Hc Hgt).
    rewrite Hsub, IH, after_app. cbn [retry_rounds_js]. rewrite Hsub.
    replace (calls (after w (retry_round_js toString envConfig retries
                               (reason_of (connector (calls w))))))
      with (S (calls w)) by (cbn; lia).
    reflexivity.
Qed.

(** On the integers up to 2^53 line 17 gives the line of the integer
    view. *)
Lemma retrying_line_js_integer (z : Z) :
  renders_integers toString ->
  1 <= z <= 2 ^ 53 ->
  retrying_line_js toString (of_Z z) = retrying_line z.
Proof.
  intros Hr Hz. unfold retrying_line_js, retrying_line, MAX_RETRIES_number,
    MAX_RETRIES.
  rewrite js_index_integer by exact Hz.
  rewrite !Hr by lia. reflexivity.
Qed.

(** On the integers up to 2^53, with fuel for every retry, [connectDB_js]
    is the integer view [connectDB]. *)
Lemma connectDB_js_integer (fuel : nat) (z : Z) (w : world) :
  renders_integers toString ->
  - 2 ^ 53 <= z <= 2 ^ 53 ->
  (Z.to_nat z < fuel)%nat ->
  connectDB_js toString envConfig connector fuel (of_Z z) w =
  (settled (fst (connectDB envConfig connector z w)),
   snd (connectDB envConfig connector z w)).
Proof.
  intros Hr. revert z w. induction fuel as [| fuel IH]; intros z w Hz Hfuel;
    [lia |].
  destruct (connector (calls w)) as [| e] eqn:Hc.
  - rewrite (connectDB_js_connected _ _ _ fuel _ w Hc).
    now rewrite (connectDB_connected _ _ z w Hc).
  - pose proof (js_gt_zero_integer z ltac:(lia)) as Hgt.
    destruct (Z.ltb_spec 0 z) as [Hpos | Hneg].
    + rewrite (connectDB_js_retry _ _ _ fuel _ w e Hc Hgt).
      rewrite (connectDB_retry _ _ z w e Hc Hpos).
      rewrite js_sub_one_integer by lia.
      unfold retry_round_js. rewrite retrying_line_js_integer by (auto; lia).
      apply IH; lia.
    + rewrite (connectDB_js_exhausted _ _ _ fuel _ w e Hc Hgt).
      now rewrite (connectDB_exhausted _ _ z w e Hc Hneg).
Qed.

End RunsOnNumbers.

(** ** From the integer view to numbers *)

Lemma settled_returns (c : completion unit) :
  settled c = Normal (Some tt) <-> c = Normal tt.
Proof.
  destruct c as [[] | e | code]; cbn; split; intros H;
    try discriminate; reflexivity.
Qed.

Lemma settled_halts (c : completion unit) (code : Z) :
  settled c = Halt code <-> c = Halt code.
Proof.
  destruct c as [[] | e | code']; cbn; split; intros H;
    try discriminate; congruence.
Qed.

Section Transfer.

Variable toString : number -> string.
Variable envConfig : EnvConfig.
Variable connector : nat -> connect_result.
Hypothesis toString_integers : renders_integers toString.

Lemma connectDB_js_integer_world (fuel : nat) (z : Z) (w : world) :
  - 2 ^ 53 <= z <= 2 ^ 53 ->
  (Z.to_nat z < fuel)%nat ->
  snd (connectDB_js toString envConfig connector fuel (of_Z z) w) =
  snd (connectDB envConfig connector z w).
Proof.
  intros Hz Hf. now rewrite connectDB_js_integer.
Qed.

Lemma connectDB_js_integer_completion (fuel : nat) (z : Z) (w : world) :
  - 2 ^ 53 <= z <= 2 ^ 53 ->
  (Z.to_nat z < fuel)%nat ->
  fst (connectDB_js toString envConfig connector fuel (of_Z z) w) =
  settled (fst (connectDB envConfig connector z w)).
Proof.
  intros Hz Hf. now rewrite connectDB_js_integer.
Qed.

(** A counter whose first decrement lands on the integer [M]: the
    failures of the attempts up to [M + 2] use it up. *)
Lemma connectDB_js_exits_after (retries : number) (M : Z) (fuel : nat) :
  js_gt retries js_zero = true ->
  js_sub retries js_one = of_Z M ->
  0 <= M <= 2 ^ 53 ->
  (forall i, (i <= Z.to_nat M + 1)%nat -> connector i <> Established) ->
  (Z.to_nat M + 1 < fuel)%nat ->
  fst (connectDB_js toString envConfig connector fuel retries boot) = Halt 1 /\
  attempts
    (trace (snd (connectDB_js toString envConfig connector fuel retries boot)))
  = (Z.to_nat M + 2)%nat.
Proof.
  intros Hgt Hsub HM Hfail Hfuel.
  destruct fuel as [| fuel]; [lia |].
  pose proof (refused_reason connector 0 (Hfail 0%nat ltac:(lia))) as Hc.
  rewrite (connectDB_js_retry _ _ _ fuel retries boot _ Hc Hgt), Hsub.
  set (w1 := after boot (retry_round_js toString envConfig retries
                           (reason_of (connector 0)))).
  assert (Hw1 : calls w1 = 1%nat) by reflexivity.
  rewrite connectDB_js_integer by (auto; lia).
  rewrite (connectDB_retry_rounds envConfig connector (Z.to_nat M) M w1)
    by (try lia; intros k Hk; rewrite Hw1; apply Hfail; lia).
  set (w2 := after w1 _).
  assert (Hw2 : calls w2 = (1 + Z.to_nat M)%nat).
  { unfold w2, after. cbn [calls]. now rewrite retry_rounds_attempts, Hw1. }
  rewrite (connectDB_exhausted envConfig connector _ w2
             (reason_of (connector (calls w2))))
    by (try lia; apply refused_reason, Hfail; lia).
  cbn [fst snd settled]. split; [reflexivity |].
  unfold w2, w1, after, boot. cbn [calls trace app].
  rewrite !attempts_app, retry_rounds_attempts. cbn. lia.
Qed.

End Transfer.

(** ** The supervisor's contract on numbers *)

(** C1, as stated, fails on a counter above 2^53: from 2^53 + 8 the
    subtraction of line 19 gives the counter back, so against a store
    that refuses every attempt the run goes on at every cut and
    [process.exit] is never reached. *)
Lemma connectDB_js_stalled_never_exits :
  js_gt stalled_counter js_zero = true /\
  js_sub stalled_counter js_one = stalled_counter /\
  (forall i, unreachable i <> Established) /\
  (forall toString fuel,
     fst (connectDB_js toString sample_env unreachable fuel
            stalled_counter boot) = Normal None /\
     attempts (trace (snd (connectDB_js toString sample_env
                             unreachable fuel stalled_counter boot))) = fuel /\
     exits (trace (snd (connectDB_js toString sample_env
                          unreachable fuel stalled_counter boot))) = []).
Proof.
  assert (Hgt : js_gt stalled_counter js_zero = true)
    by (vm_compute; reflexivity).
  assert (Hsub : js_sub stalled_counter js_one = stalled_counter)
    by (vm_compute; reflexivity).
  assert (Hfail : forall i, unreachable i <> Established)
    by (intros i; discriminate).
  repeat split; try assumption;
    rewrite (connectDB_js_stalls toString sample_env unreachable
               stalled_counter Hgt Hsub Hfail fuel boot);
    cbn [fst snd trace after boot app].
  - reflexivity.
  - apply retry_rounds_js_attempts.
  - apply retry_rounds_js_exits.
Qed.

(** C1, amended.  For every integer [N] with [0 <= N <= 2^53], when every
    connection attempt fails, [connectDB N] makes exactly [N + 1] attempts
    (the initial one and [N] retries) and only then raises the fatal
    signal: the process exits with status 1, the exit is the last event
    of the run, and the [N + 1] attempts all come before it. *)
Theorem connectDB_js_all_fail_attempts
  (toString : number -> string) (envConfig : EnvConfig)
  (connector : nat -> connect_result) (N : Z) (fuel : nat) :
  renders_integers toString ->
  0 <= N <= 2 ^ 53 ->
  (forall i, connector i <> Established) ->
  (Z.to_nat N < fuel)%nat ->
  exists t,
    connectDB_js toString envConfig connector fuel (of_Z N) boot =
      (Halt 1, {| calls := Z.to_nat N + 1; trace := t ++ [ProcessExit 1] |}) /\
    Z.of_nat (attempts t) = N + 1 /\
    exits t = [].
Proof.
  intros Hr HN Hfail Hfuel.
  destruct (connectDB_all_fail_attempts envConfig connector N
              ltac:(lia) Hfail) as (t & Hrun & Hatt & Hex).
  exists t. rewrite connectDB_js_integer by (auto; lia).
  rewrite Hrun. cbn [settled fst snd]. auto.
Qed.

Lemma connectDB_js_all_fail_attempts_witness :
  exists t,
    connectDB_js integer_toString sample_env unreachable 3 (of_Z 2) boot =
      (Halt 1, {| calls := Z.to_nat 2 + 1; trace := t ++ [ProcessExit 1] |}) /\
    Z.of_nat (attempts t) = 2 + 1 /\
    exits t = [].
Proof.
  apply (connectDB_js_all_fail_attempts integer_toString sample_env
           unreachable 2 3).
  - exact integer_toString_renders.
  - lia.
  - intros i; discriminate.
  - cbn; lia.
Defined.

(** C2, as stated, fails on the counter [Infinity]: it is greater than
    zero and [Infinity - 1] is [Infinity], so the argument of the
    recursive call does not go down and, against a store that refuses
    every attempt, the promise is still pending at every cut, after as
    many attempts as the cut allows. *)
Lemma connectDB_js_infinite_counter_never_settles :
  js_gt js_infinity js_zero = true /\
  js_sub js_infinity js_one = js_infinity /\
  (forall toString fuel,
     fst (connectDB_js toString sample_env unreachable fuel
            js_infinity boot) = Normal None /\
     attempts (trace (snd (connectDB_js toString sample_env
                             unreachable fuel js_infinity boot))) = fuel).
Proof.
  assert (Hgt : js_gt js_infinity js_zero = true) by reflexivity.
  assert (Hsub : js_sub js_infinity js_one = js_infinity) by reflexivity.
  assert (Hfail : forall i, unreachable i <> Established)
    by (intros i; discriminate).
  repeat split; try assumption;
    rewrite (connectDB_js_stalls toString sample_env unreachable
               js_infinity Hgt Hsub Hfail fuel boot);
    cbn [fst snd trace after boot app].
  - reflexivity.
  - apply retry_rounds_js_attempts.
Qed.

(** C2, amended.  For every integer counter with [0 <= retries <= 2^53]
    and every sequence of connector outcomes, [connectDB] terminates, in
    one of two ways: it returns normally, the last attempt having
    established the connection, or it stops the process with a non-zero
    status.  It makes at least one and at most [retries + 1] attempts.
    On these counters [retries - 1] is exact: each retry is a call of
    [connectDB] with the counter lowered by one, which lowers the measure
    of the recursion. *)
Theorem connectDB_js_terminates
  (toString : number -> string) (envConfig : EnvConfig)
  (connector : nat -> connect_result) (retries : Z) (w : world) (fuel : nat) :
  renders_integers toString ->
  0 <= retries <= 2 ^ 53 ->
  (Z.to_nat retries < fuel)%nat ->
  (exists t,
     (1 <= attempts t <= Z.to_nat retries + 1)%nat /\
     ((connectDB_js toString envConfig connector fuel (of_Z retries) w =
         (Normal (Some tt), after w t) /\
       connector (calls w + attempts t - 1)%nat = Established)
      \/
      (exists code t',
         code <> 0 /\
         connectDB_js toString envConfig connector fuel (of_Z retries) w =
           (Halt code, after w t) /\
         t = t' ++ [ProcessExit code]))) /\
  (0 < retries ->
   js_gt (of_Z retries) js_zero = true /\
   js_sub (of_Z retries) js_one = of_Z (retries - 1) /\
   (Z.to_nat (retries - 1) < Z.to_nat retries)%nat /\
   forall e,
     connector (calls w) = Refused e ->
     connectDB_js toString envConfig connector (S fuel) (of_Z retries) w =
     connectDB_js toString envConfig connector fuel (of_Z (retries - 1))
       (after w (retry_round_js toString envConfig (of_Z retries) e))).
Proof.
  intros Hr Hz Hfuel. split.
  - destruct (proj1 (connectDB_terminates envConfig connector retries w))
      as (t & Hb & Hend).
    exists t. split; [exact Hb |].
    rewrite connectDB_js_integer by (auto; lia).
    destruct Hend as [(Hrun & Hok) | (code & t' & Hcode & Hrun & Ht)].
    + left. rewrite Hrun. cbn [settled fst snd]. auto.
    + right. exists code, t'. rewrite Hrun. cbn [settled fst snd]. auto.
  - intros Hpos.
    assert (Hgt : js_gt (of_Z retries) js_zero = true).
    { rewrite js_gt_zero_integer by lia. apply Z.ltb_lt. lia. }
    repeat split; [exact Hgt | apply js_sub_one_integer; lia | lia |].
    intros e Hc.
    rewrite (connectDB_js_retry _ _ _ fuel _ w e Hc Hgt).
    now rewrite js_sub_one_integer by lia.
Qed.

Lemma connectDB_js_terminates_witness :
  js_gt (of_Z 2) js_zero = true /\
  js_sub (of_Z 2) js_one = of_Z (2 - 1) /\
  (Z.to_nat (2 - 1) < Z.to_nat 2)%nat.
Proof.
  destruct (proj2 (connectDB_js_terminates integer_toString sample_env
                     unreachable 2 boot 3 integer_toString_renders
                     ltac:(lia) ltac:(cbn; lia)) ltac:(lia))
    as (Hgt & Hsub & Hlt & _).
  repeat split; assumption.
Defined.

(** C3, as stated, fails at [N = 2^53 + 2] and [k = N + 1]: the
    subtraction of line 19 takes this counter to 2^53 at once, a retry is
    lost, and when attempt [k] would succeed after [N] failures the run
    has already exited with status 1, after [N] attempts. *)
Lemma connectDB_js_loses_a_retry :
  js_sub (of_Z (2 ^ 53 + 2)) js_one = of_Z (2 ^ 53) /\
  reachable_at (Z.to_nat (2 ^ 53 + 3)) (Z.to_nat (2 ^ 53 + 2)) = Established /\
  (forall i, (i < Z.to_nat (2 ^ 53 + 2))%nat ->
     reachable_at (Z.to_nat (2 ^ 53 + 3)) i <> Established) /\
  (forall fuel,
     (Z.to_nat (2 ^ 53 + 2) < fuel)%nat ->
     fst (connectDB_js integer_toString sample_env
            (reachable_at (Z.to_nat (2 ^ 53 + 3))) fuel
            (of_Z (2 ^ 53 + 2)) boot) = Halt 1 /\
     Z.of_nat
       (attempts
          (trace (snd (connectDB_js integer_toString sample_env
                         (reachable_at (Z.to_nat (2 ^ 53 + 3))) fuel
                         (of_Z (2 ^ 53 + 2)) boot))))
     = 2 ^ 53 + 2).
Proof.
  assert (Hsub : js_sub (of_Z (2 ^ 53 + 2)) js_one = of_Z (2 ^ 53))
    by (vm_compute; reflexivity).
  assert (Hgt : js_gt (of_Z (2 ^ 53 + 2)) js_zero = true)
    by (vm_compute; reflexivity).
  assert (Hfail : forall i, (i < Z.to_nat (2 ^ 53 + 2))%nat ->
                    reachable_at (Z.to_nat (2 ^ 53 + 3)) i <> Established).
  { intros i Hi. unfold reachable_at.
    destruct (Nat.ltb_spec (S i) (Z.to_nat (2 ^ 53 + 3))); [discriminate | lia]. }
  split; [exact Hsub |]. split; [| split; [exact Hfail |]].
  - unfold reachable_at.
    destruct (Nat.ltb_spec (S (Z.to_nat (2 ^ 53 + 2))) (Z.to_nat (2 ^ 53 + 3)));
      [lia | reflexivity].
  - intros fuel Hfuel.
    destruct (connectDB_js_exits_after integer_toString sample_env
                (reachable_at (Z.to_nat (2 ^ 53 + 3)))
                integer_toString_renders
                (of_Z (2 ^ 53 + 2)) (2 ^ 53) fuel Hgt Hsub)
      as [Hhalt Hatt].
    + lia.
    + intros i Hi. apply Hfail. lia.
    + lia.
    + split; [exact Hhalt |]. rewrite Hatt. lia.
Qed.

(** C3, amended.  For an integer [N] with [0 <= N <= 2^53] and
    [1 <= k <= N + 1], when attempt [k] succeeds and all attempts before it
    failed, [connectDB N] makes exactly [k] attempts, logs the success line
    right after the successful attempt, returns normally with nothing done
    after that line, and never calls [process.exit]. *)
Theorem connectDB_js_succeeds_at_attempt
  (toString : number -> string) (envConfig : EnvConfig)
  (connector : nat -> connect_result) (N : Z) (k : nat) (fuel : nat) :
  renders_integers toString ->
  0 <= N <= 2 ^ 53 ->
  (1 <= k)%nat ->
  Z.of_nat k <= N + 1 ->
  (forall i, (i < k - 1)%nat -> connector i <> Established) ->
  connector (k - 1)%nat = Established ->
  (Z.to_nat N < fuel)%nat ->
  exists t,
    connectDB_js toString envConfig connector fuel (of_Z N) boot =
      (Normal (Some tt),
       {| calls := k;
          trace := t ++ [attempt envConfig;
                         ConsoleLog "Connected to MongoDB"] |}) /\
    attempts t = (k - 1)%nat /\
    attempts (t ++ [attempt envConfig; ConsoleLog "Connected to MongoDB"]) = k /\
    exits (t ++ [attempt envConfig; ConsoleLog "Connected to MongoDB"]) = [].
Proof.
  intros Hr HN Hk HkN Hfail Hok Hfuel.
  destruct (connectDB_succeeds_at_attempt envConfig connector N k
              ltac:(lia) Hk HkN Hfail Hok) as (t & Hrun & Hrest).
  exists t. rewrite connectDB_js_integer by (auto; lia).
  rewrite Hrun. cbn [settled fst snd]. auto.
Qed.

Lemma connectDB_js_succeeds_at_attempt_witness :
  exists t,
    connectDB_js integer_toString sample_env (reachable_at 3) 6 (of_Z 5) boot =
      (Normal (Some tt),
       {| calls := 3;
          trace := t ++ [attempt sample_env;
                         ConsoleLog "Connected to MongoDB"] |}) /\
    attempts t = (3 - 1)%nat /\
    attempts (t ++ [attempt sample_env; ConsoleLog "Connected to MongoDB"])
      = 3%nat /\
    exits (t ++ [attempt sample_env; ConsoleLog "Connected to MongoDB"]) = [].
Proof.
  apply (connectDB_js_succeeds_at_attempt integer_toString sample_env
           (reachable_at 3) 5 3 6).
  - exact integer_toString_renders.
  - lia.
  - lia.
  - lia.
  - intros i Hi.
    destruct i as [| [| i]]; cbn; [discriminate | discriminate | lia].
  - reflexivity.
  - cbn; lia.
Defined.

(** ** Whole runs on numbers, from process start *)

Section BootOnNumbers.

Variable toString : number -> string.
Variable envConfig : EnvConfig.
Variable connector : nat -> connect_result.

(** The trace of a run only grows, and a run that makes a pass starts
    with a connection attempt. *)
Lemma connectDB_js_extends (fuel : nat) (retries : number) (w : world) :
  exists t,
    snd (connectDB_js toString envConfig connector fuel retries w) = after w t /\
    (fuel <> 0%nat -> exists rest, t = attempt envConfig :: rest).
Proof.
  destruct (connectDB_js_shape toString envConfig connector fuel retries w)
    as (j & Hj & _ & [(Hcut & Hrun) | [(Hlt & _ & Hrun) | (Hlt & _ & _ & Hrun)]]);
    rewrite Hrun; cbn [snd]; eexists; (split; [reflexivity |]); intros Hfuel.
  - subst j. destruct fuel as [| fuel]; [congruence |].
    cbn [retry_rounds_js retry_round_js app]. eexists; reflexivity.
  - destruct j as [| j];
      cbn [retry_rounds_js retry_round_js connected_round app];
      eexists; reflexivity.
  - destruct j as [| j];
      cbn [retry_rounds_js retry_round_js fatal_round app];
      eexists; reflexivity.
Qed.

Lemma connectDB_js_completion (fuel : nat) (retries : number) (w : world) :
  fst (connectDB_js toString envConfig connector fuel retries w) = Normal None \/
  fst (connectDB_js toString envConfig connector fuel retries w)
    = Normal (Some tt) \/
  fst (connectDB_js toString envConfig connector fuel retries w) = Halt 1.
Proof.
  destruct (connectDB_js_shape toString envConfig connector fuel retries w)
    as (j & Hj & _ & [(Hcut & Hrun) | [(Hlt & _ & Hrun) | (Hlt & _ & _ & Hrun)]]);
    rewrite Hrun; cbn [fst]; auto.
Qed.

(** A run from process start: [j] retried failures, then the cut, a
    success or the fatal round. *)
Lemma connectDB_js_boot_run (fuel : nat) (retries : number) :
  exists j tail c,
    connectDB_js toString envConfig connector fuel retries boot =
      (c, {| calls :=
               attempts (retry_rounds_js toString envConfig connector j
                           retries 0 ++ tail);
             trace := retry_rounds_js toString envConfig connector j
                        retries 0 ++ tail |}) /\
    (j <= fuel)%nat /\
    (forall k, (k < j)%nat ->
       connector k <> Established /\
       js_gt (js_countdown k retries) js_zero = true) /\
    ((j = fuel /\ c = Normal None /\ tail = [])
     \/
     ((j < fuel)%nat /\ connector j = Established /\
      c = Normal (Some tt) /\ tail = connected_round envConfig)
     \/
     ((j < fuel)%nat /\ connector j <> Established /\
      js_gt (js_countdown j retries) js_zero = false /\
      c = Halt 1 /\
      tail = fatal_round envConfig (reason_of (connector j)))).
Proof.
  destruct (connectDB_js_shape toString envConfig connector fuel retries boot)
    as (j & Hj & Hfail & Hend).
  cbn [calls boot Nat.add] in Hfail, Hend.
  exists j.
  destruct Hend as [(Hcut & Hrun) | [(Hlt & Hok & Hrun) |
                                     (Hlt & Hno & Hle & Hrun)]].
  - exists [], (Normal None). rewrite Hrun, app_nil_r.
    split; [reflexivity |]. split; [exact Hj |]. split; [exact Hfail |].
    left. auto.
  - exists (connected_round envConfig), (Normal (Some tt)). rewrite Hrun.
    split; [reflexivity |]. split; [exact Hj |]. split; [exact Hfail |].
    right; left. auto.
  - exists (fatal_round envConfig (reason_of (connector j))), (Halt 1).
    rewrite Hrun.
    split; [reflexivity |]. split; [exact Hj |]. split; [exact Hfail |].
    right; right. auto.
Qed.

End BootOnNumbers.

(** C5.  For every number passed as counter, every cut of the run and
    every sequence of connector outcomes, the promise returned by
    [connectDB] does not reject: the run is pending, has returned, or has
    stopped the process with status 1.  A connection failure met while the
    counter is greater than zero is handled inside [connectDB]: it leaves
    the error line, the retry line and a delay in the trace, nothing else,
    and the next event is the connection attempt of the retry, the run
    going on as [connectDB (retries - 1)]. *)
Theorem connectDB_js_never_rejects
  (toString : number -> string) (envConfig : EnvConfig)
  (connector : nat -> connect_result)
  (fuel : nat) (retries : number) (w : world) :
  (forall e,
     fst (connectDB_js toString envConfig connector fuel retries w) <> Throw e) /\
  (fst (connectDB_js toString envConfig connector fuel retries w) = Normal None \/
   fst (connectDB_js toString envConfig connector fuel retries w)
     = Normal (Some tt) \/
   fst (connectDB_js toString envConfig connector fuel retries w) = Halt 1) /\
  (forall e,
     connector (calls w) = Refused e ->
     js_gt retries js_zero = true ->
     connectDB_js toString envConfig connector (S fuel) retries w =
       connectDB_js toString envConfig connector fuel (js_sub retries js_one)
         {| calls := S (calls w);
            trace := trace w ++
                     [attempt envConfig;
                      ConsoleError "MongoDB connection error:" (Some e);
                      ConsoleLog (retrying_line_js toString retries);
                      SetTimeout RETRY_DELAY] |} /\
     exists rest,
       trace (snd (connectDB_js toString envConfig connector (S (S fuel))
                     retries w)) =
       trace w ++
       [attempt envConfig;
        ConsoleError "MongoDB connection error:" (Some e);
        ConsoleLog (retrying_line_js toString retries);
        SetTimeout RETRY_DELAY;
        attempt envConfig] ++ rest).
Proof.
  pose proof (connectDB_js_completion toString envConfig connector fuel
                retries w) as Hc.
  split; [| split; [exact Hc |]].
  - intros e. destruct Hc as [-> | [-> | ->]]; discriminate.
  - intros e Hrefused Hgt.
    assert (Hw : after w (retry_round_js toString envConfig retries e) =
                 {| calls := S (calls w);
                    trace := trace w ++
                      [attempt envConfig;
                       ConsoleError "MongoDB connection error:" (Some e);
                       ConsoleLog (retrying_line_js toString retries);
                       SetTimeout RETRY_DELAY] |}).
    { unfold after, retry_round_js. cbn [attempts filter is_attempt attempt
                                           List.length].
      f_equal. lia. }
    split.
    + rewrite (connectDB_js_retry _ _ _ fuel retries w e Hrefused Hgt).
      now rewrite Hw.
    + rewrite (connectDB_js_retry _ _ _ (S fuel) retries w e Hrefused Hgt).
      destruct (connectDB_js_extends toString envConfig connector (S fuel)
                  (js_sub retries js_one)
                  (after w (retry_round_js toString envConfig retries e)))
        as (t & Ht & Hstart).
      destruct (Hstart ltac:(discriminate)) as (rest & ->).
      exists rest. rewrite Ht. unfold after at 1. cbn [trace].
      unfold after, retry_round_js. cbn [trace].
      rewrite <- !app_assoc. reflexivity.
Qed.

Lemma connectDB_js_never_rejects_witness :
  exists rest,
    trace (snd (connectDB_js integer_toString sample_env unreachable 2
                  (of_Z 2) boot)) =
    trace boot ++
    [attempt sample_env;
     ConsoleError "MongoDB connection error:" (Some econnrefused);
     ConsoleLog (retrying_line_js integer_toString (of_Z 2));
     SetTimeout RETRY_DELAY;
     attempt sample_env] ++ rest.
Proof.
  apply (proj2 (proj2 (connectDB_js_never_rejects integer_toString sample_env
                         unreachable 0 (of_Z 2) boot)) econnrefused).
  - reflexivity.
  - vm_compute. reflexivity.
Defined.

Section DelaysOnNumbers.

Variable toString : number -> string.
Variable envConfig : EnvConfig.
Variable connector : nat -> connect_result.

Lemma retry_rounds_js_cut j retries :
  let t := retry_rounds_js toString envConfig connector j retries 0 ++ [] in
  attempts t = j /\
  delays t = repeat RETRY_DELAY j /\
  pauses t = repeat [RETRY_DELAY] j.
Proof.
  cbv zeta. rewrite retry_rounds_js_pauses by exact I.
  rewrite !app_nil_r, retry_rounds_js_attempts, retry_rounds_js_delays.
  auto.
Qed.

Lemma retry_rounds_js_connected j retries :
  let t := retry_rounds_js toString envConfig connector j retries 0
           ++ connected_round envConfig in
  attempts t = S j /\
  delays t = repeat RETRY_DELAY j /\
  pauses t = repeat [RETRY_DELAY] j ++ [[]].
Proof.
  cbv zeta. rewrite retry_rounds_js_pauses by reflexivity.
  rewrite attempts_app, delays_app, retry_rounds_js_attempts,
    retry_rounds_js_delays.
  cbn. rewrite app_nil_r. repeat split. lia.
Qed.

Lemma retry_rounds_js_fatal j retries e :
  let t := retry_rounds_js toString envConfig connector j retries 0
           ++ fatal_round envConfig e in
  attempts t = S j /\
  delays t = repeat RETRY_DELAY j /\
  pauses t = repeat [RETRY_DELAY] j ++ [[]].
Proof.
  cbv zeta. rewrite retry_rounds_js_pauses by reflexivity.
  rewrite attempts_app, delays_app, retry_rounds_js_attempts,
    retry_rounds_js_delays.
  cbn. rewrite app_nil_r. repeat split. lia.
Qed.

End DelaysOnNumbers.

(** C6.  For every number passed as counter and every cut of the run,
    every delay requested by [connectDB] is [RETRY_DELAY] = 5000 ms:
    exactly one such delay is requested between two consecutive attempts
    and none after the last attempt of a finished run.  A run that returns
    at attempt [k] has requested [k - 1] delays, a run that stops the
    process after [A] failed attempts has requested [A - 1], and with a
    counter that is not greater than zero (zero itself, for one) a failing
    run stops at once, with no delay.  For an integer counter [N] with
    [0 <= N <= 2^53], a success at attempt [k <= N + 1] ends the run with
    [k - 1] delays, and failures only end it with [N] delays. *)
Theorem connectDB_js_fixed_delay
  (toString : number -> string) (envConfig : EnvConfig)
  (connector : nat -> connect_result) (fuel : nat) (retries : number) :
  let run := connectDB_js toString envConfig connector fuel retries boot in
  let t := trace (snd run) in
  RETRY_DELAY = 5000 /\
  Forall (fun ms => ms = RETRY_DELAY) (delays t) /\
  (fst run = Normal None ->
   attempts t = fuel /\ pauses t = repeat [RETRY_DELAY] fuel) /\
  (fst run = Normal (Some tt) ->
   (1 <= attempts t)%nat /\
   connector (attempts t - 1)%nat = Established /\
   (forall i, (i < attempts t - 1)%nat -> connector i <> Established) /\
   pauses t = repeat [RETRY_DELAY] (attempts t - 1) ++ [[]] /\
   delays t = repeat RETRY_DELAY (attempts t - 1)) /\
  (fst run = Halt 1 ->
   (1 <= attempts t)%nat /\
   (forall i, (i < attempts t)%nat -> connector i <> Established) /\
   pauses t = repeat [RETRY_DELAY] (attempts t - 1) ++ [[]] /\
   delays t = repeat RETRY_DELAY (attempts t - 1)) /\
  js_gt js_zero js_zero = false /\
  (js_gt retries js_zero = false ->
   connector 0%nat <> Established ->
   (1 <= fuel)%nat ->
   fst run = Halt 1 /\ attempts t = 1%nat /\ delays t = []) /\
  (forall N,
     renders_integers toString ->
     retries = of_Z N ->
     0 <= N <= 2 ^ 53 ->
     (Z.to_nat N < fuel)%nat ->
     (forall k,
        (1 <= k)%nat ->
        Z.of_nat k <= N + 1 ->
        (forall i, (i < k - 1)%nat -> connector i <> Established) ->
        connector (k - 1)%nat = Established ->
        fst run = Normal (Some tt) /\ attempts t = k /\
        delays t = repeat RETRY_DELAY (k - 1)) /\
     ((forall i, connector i <> Established) ->
      fst run = Halt 1 /\ Z.of_nat (attempts t) = N + 1 /\
      delays t = repeat RETRY_DELAY (Z.to_nat N))).
Proof.
  intros run t.
  split; [reflexivity |].
  assert (Hshape :
            exists j tail c,
              run = (c, {| calls :=
                             attempts (retry_rounds_js toString envConfig
                                         connector j retries 0 ++ tail);
                           trace := retry_rounds_js toString envConfig
                                      connector j retries 0 ++ tail |}) /\
              (j <= fuel)%nat /\
              (forall k, (k < j)%nat ->
                 connector k <> Established /\
                 js_gt (js_countdown k retries) js_zero = true) /\
              ((j = fuel /\ c = Normal None /\ tail = [])
               \/
               ((j < fuel)%nat /\ connector j = Established /\
                c = Normal (Some tt) /\ tail = connected_round envConfig)
               \/
               ((j < fuel)%nat /\ connector j <> Established /\
                js_gt (js_countdown j retries) js_zero = false /\
                c = Halt 1 /\
                tail = fatal_round envConfig (reason_of (connector j)))))
    by apply connectDB_js_boot_run.
  destruct Hshape as (j & tail & c & Hrun & Hj & Hfail & Hend).
  assert (Ht : t = retry_rounds_js toString envConfig connector j retries 0
                   ++ tail) by (subst t; now rewrite Hrun).
  assert (Hc : fst run = c) by now rewrite Hrun.
  split; [| split; [| split; [| split; [| split; [| split]]]]].
  - rewrite Ht, delays_app, retry_rounds_js_delays.
    apply Forall_app. split.
    + apply Forall_forall. intros ms Hin. now apply repeat_spec in Hin.
    + destruct Hend as [(_ & _ & ->) | [(_ & _ & _ & ->) | (_ & _ & _ & _ & ->)]];
        cbn; constructor.
  - rewrite Hc, Ht. intros ->.
    destruct Hend as [(-> & _ & ->) | [(_ & _ & Habs & _) |
                                       (_ & _ & _ & Habs & _)]];
      try discriminate.
    destruct (retry_rounds_js_cut toString envConfig connector fuel retries)
      as (Ha & _ & Hp). auto.
  - rewrite Hc, Ht. intros ->.
    destruct Hend as [(_ & Habs & _) | [(_ & Hok & _ & ->) |
                                        (_ & _ & _ & Habs & _)]];
      try discriminate.
    destruct (retry_rounds_js_connected toString envConfig connector j retries)
      as (Ha & Hd & Hp).
    rewrite Ha, Hd, Hp. replace (S j - 1)%nat with j by lia.
    repeat split; [lia | exact Hok |].
    intros i Hi. apply Hfail, Hi.
  - rewrite Hc, Ht. intros ->.
    destruct Hend as [(_ & Habs & _) | [(_ & _ & Habs & _) |
                                        (_ & Hno & _ & _ & ->)]];
      try discriminate.
    destruct (retry_rounds_js_fatal toString envConfig connector j retries
                (reason_of (connector j)))
      as (Ha & Hd & Hp).
    rewrite Ha, Hd, Hp. replace (S j - 1)%nat with j by lia.
    repeat split; [lia |].
    intros i Hi. destruct (Nat.eq_dec i j) as [-> | Hne]; [exact Hno |].
    apply Hfail. lia.
  - reflexivity.
  - intros Hgt Hno Hfuel. subst t run.
    destruct fuel as [| fuel']; [lia |].
    apply refused_reason in Hno.
    rewrite (connectDB_js_exhausted _ _ _ fuel' retries boot _ Hno Hgt).
    cbn. repeat split.
  - intros N Hr -> HN Hfuel.
    destruct (connectDB_fixed_delay envConfig connector N)
      as (_ & _ & _ & Hsucc & Hall & _).
    assert (Hw : trace (snd (connectDB envConfig connector N boot)) = t).
    { subst t run. now rewrite connectDB_js_integer by (auto; lia). }
    assert (Hs : fst run = settled (fst (connectDB envConfig connector N boot))).
    { subst run. now rewrite connectDB_js_integer by (auto; lia). }
    rewrite Hw in Hsucc, Hall. split.
    + intros k Hk HkN Hfails Hok.
      destruct (Hsucc k Hk HkN Hfails Hok) as (H1 & H2 & H3).
      rewrite Hs, H1. auto.
    + intros Hfails.
      destruct (Hall ltac:(lia) Hfails) as (H1 & H2 & H3).
      rewrite Hs, H1. auto.
Qed.

Lemma connectDB_js_fixed_delay_witness :
  fst (connectDB_js integer_toString sample_env unreachable 1 js_zero boot)
    = Halt 1 /\
  attempts (trace (snd (connectDB_js integer_toString sample_env unreachable 1
                          js_zero boot))) = 1%nat /\
  delays (trace (snd (connectDB_js integer_toString sample_env unreachable 1
                        js_zero boot))) = [].
Proof.
  destruct (connectDB_js_fixed_delay integer_toString sample_env unreachable 1
              js_zero)
    as (_ & _ & _ & _ & _ & _ & Hzero & _).
  apply Hzero.
  - reflexivity.
  - discriminate.
  - lia.
Defined.

(** The guard of line 16 fails on the numbers that are zero or below, and
    on them and on NaN only. *)
Lemma js_le_zero_not_gt (x : number) :
  js_le x js_zero = true -> js_gt x js_zero = false.
Proof.
  destruct x as [s | s | | s m e]; try destruct s; cbn; congruence.
Qed.

Lemma js_not_gt_zero_cases (x : number) :
  js_gt x js_zero = false -> js_le x js_zero = true \/ x = S754_nan.
Proof.
  destruct x as [s | s | | s m e]; try destruct s; cbn; auto; congruence.
Qed.

(** C7, as stated, fails when [maxRetries] is the counter passed to
    [connectDB], as it is in C1 and C6: called with 2 against a store that
    refuses every attempt, the run logs (4/5) and (5/5), not (1/2) and
    (2/2); the numbering is neither out of the counter passed nor
    1-indexed.  Nor is the index the integer [MAX_RETRIES - remaining + 1]
    on every counter: at 2^53 + 8 line 17 computes -(2^53 + 4), where the
    integer is -(2^53 + 2). *)
Lemma connectDB_js_numbering_ignores_argument :
  (forall i, unreachable i <> Established) /\
  stdout (trace (snd (connectDB_js integer_toString sample_env unreachable 3
                        (of_Z 2) boot))) =
    ["Retrying connection... (4/5)"%string;
     "Retrying connection... (5/5)"%string] /\
  ~ In "Retrying connection... (1/2)"%string
       (stdout (trace (snd (connectDB_js integer_toString sample_env
                              unreachable 3 (of_Z 2) boot)))) /\
  js_add (js_sub MAX_RETRIES_number stalled_counter) js_one
    = of_Z (- (2 ^ 53 + 4)) /\
  of_Z (- (2 ^ 53 + 4)) <> of_Z (MAX_RETRIES - (2 ^ 53 + 8) + 1).
Proof.
  split; [intros i; discriminate |].
  assert (Hout :
            stdout (trace (snd (connectDB_js integer_toString sample_env
                                  unreachable 3 (of_Z 2) boot))) =
            ["Retrying connection... (4/5)"%string;
             "Retrying connection... (5/5)"%string])
    by (vm_compute; reflexivity).
  split; [exact Hout |]. split; [| split].
  - rewrite Hout. intros [H | [H | []]]; discriminate H.
  - vm_compute. reflexivity.
  - vm_compute. discriminate.
Qed.

(** C7, amended.  A failed attempt met with a counter [remaining]
    greater than zero logs the retry line whose index is the number
    [MAX_RETRIES - remaining + 1] and whose total is [MAX_RETRIES], the
    constant 5 of the module and not the counter passed.  For an integer
    [remaining] from 1 to 2^53 the index is that integer.  In a run started
    with the default counter [MAX_RETRIES] the numbering is 1-indexed: when
    the first [j] attempts fail, the first [j] lines of [console.log] are
    the retry lines (1/5) .. (j/5), in that order; with failures on
    attempts 1 and 2 and a success on attempt 3, [console.log] shows
    exactly (1/5), (2/5) and then the success line, after 3 attempts. *)
Theorem connectDB_js_retry_line_numbering
  (toString : number -> string) (envConfig : EnvConfig)
  (connector : nat -> connect_result) :
  (forall (fuel : nat) (remaining : number) (w : world) (e : js_error),
     connector (calls w) = Refused e ->
     js_gt remaining js_zero = true ->
     exists rest,
       trace (snd (connectDB_js toString envConfig connector (S fuel)
                     remaining w)) =
       trace w ++
       [attempt envConfig;
        ConsoleError "MongoDB connection error:" (Some e);
        ConsoleLog
          ("Retrying connection... ("
             ++ toString (js_add (js_sub MAX_RETRIES_number remaining) js_one)
             ++ "/" ++ toString MAX_RETRIES_number ++ ")")%string;
        SetTimeout RETRY_DELAY] ++ rest) /\
  (renders_integers toString ->
   (forall remaining,
      1 <= remaining <= 2 ^ 53 ->
      js_gt (of_Z remaining) js_zero = true /\
      toString (js_add (js_sub MAX_RETRIES_number (of_Z remaining)) js_one)
        = template_number (MAX_RETRIES - remaining + 1) /\
      toString MAX_RETRIES_number = "5"%string) /\
   (forall fuel j,
      (5 < fuel)%nat ->
      (j <= 5)%nat ->
      (forall i, (i < j)%nat -> connector i <> Established) ->
      firstn j (stdout (trace (snd (connectDB_js_default toString envConfig
                                      connector fuel boot))))
      = map (fun a =>
               ("Retrying connection... (" ++ template_number (Z.of_nat a)
                  ++ "/5)")%string)
            (seq 1 j)) /\
   (forall fuel,
      (5 < fuel)%nat ->
      connector 0%nat <> Established ->
      connector 1%nat <> Established ->
      connector 2%nat = Established ->
      fst (connectDB_js_default toString envConfig connector fuel boot)
        = Normal (Some tt) /\
      attempts (trace (snd (connectDB_js_default toString envConfig connector
                              fuel boot))) = 3%nat /\
      stdout (trace (snd (connectDB_js_default toString envConfig connector
                            fuel boot))) =
        ["Retrying connection... (1/5)"%string;
         "Retrying connection... (2/5)"%string;
         "Connected to MongoDB"%string])).
Proof.
  split.
  - intros fuel remaining w e Hc Hgt.
    rewrite (connectDB_js_retry _ _ _ fuel remaining w e Hc Hgt).
    destruct (connectDB_js_extends toString envConfig connector fuel
                (js_sub remaining js_one)
                (after w (retry_round_js toString envConfig remaining e)))
      as (t & Ht & _).
    exists t. rewrite Ht. unfold after at 1. cbn [trace].
    unfold after, retry_round_js, retrying_line_js. cbn [trace].
    rewrite <- !app_assoc. reflexivity.
  - intros Hr.
    assert (Hbridge : forall fuel, (5 < fuel)%nat ->
              connectDB_js_default toString envConfig connector fuel boot =
              (settled (fst (connectDB_default envConfig connector boot)),
               snd (connectDB_default envConfig connector boot))).
    { intros fuel Hfuel.
      unfold connectDB_js_default, connectDB_default, MAX_RETRIES_number.
      apply connectDB_js_integer; [exact Hr | unfold MAX_RETRIES; lia |].
      unfold MAX_RETRIES. lia. }
    destruct (connectDB_retry_line_numbering envConfig connector)
      as (_ & Hfirst & Hscene).
    split; [| split].
    + intros remaining Hrem. split; [| split].
      * rewrite js_gt_zero_integer by lia. apply Z.ltb_lt. lia.
      * unfold MAX_RETRIES_number, MAX_RETRIES.
        rewrite js_index_integer by lia. apply Hr. lia.
      * unfold MAX_RETRIES_number, MAX_RETRIES. rewrite Hr by lia.
        reflexivity.
    + intros fuel j Hfuel Hj Hfail. rewrite Hbridge by exact Hfuel.
      cbn [snd]. apply Hfirst; assumption.
    + intros fuel Hfuel H0 H1 H2. rewrite Hbridge by exact Hfuel.
      destruct (Hscene H0 H1 H2) as (Hc & Ha & Hs).
      cbn [fst snd]. rewrite Hc. auto.
Qed.

Lemma connectDB_js_retry_line_numbering_witness :
  fst (connectDB_js_default integer_toString sample_env (reachable_at 3) 6 boot)
    = Normal (Some tt) /\
  attempts (trace (snd (connectDB_js_default integer_toString sample_env
                          (reachable_at 3) 6 boot))) = 3%nat /\
  stdout (trace (snd (connectDB_js_default integer_toString sample_env
                        (reachable_at 3) 6 boot))) =
    ["Retrying connection... (1/5)"%string;
     "Retrying connection... (2/5)"%string;
     "Connected to MongoDB"%string].
Proof.
  destruct (proj2 (connectDB_js_retry_line_numbering integer_toString
                     sample_env (reachable_at 3))
              integer_toString_renders)
    as (_ & _ & Hscene).
  apply (Hscene 6%nat).
  - lia.
  - discriminate.
  - discriminate.
  - reflexivity.
Defined.

(** C9, amended.  Every retry line written by [connectDB] shows the
    total [MAX_RETRIES] = 5, whatever number was passed as counter.  For a
    call [connectDB r] with [r > 0] whose first attempt fails, the first
    line of [console.log] is the retry line whose index is the number
    [MAX_RETRIES - r + 1]; for [r] an integer, [0 < r <= 2^53], that is
    the integer [5 - r + 1]: (4/5) for [r = 2], above the counter passed;
    (0/5) for [r = 6] and (-1/5) for [r = 7].  For [r <= 0], and for
    every counter that is not greater than zero, the first failure logs no
    retry line. *)
Theorem connectDB_js_retry_line_total
  (toString : number -> string) (envConfig : EnvConfig)
  (connector : nat -> connect_result) :
  renders_integers toString ->
  toString MAX_RETRIES_number = "5"%string /\
  (forall fuel retries line,
     In line (stdout (trace (snd (connectDB_js toString envConfig connector
                                    fuel retries boot)))) ->
     line = "Connected to MongoDB"%string \/
     exists x,
       line = ("Retrying connection... (" ++ toString x ++ "/5)")%string) /\
  (forall fuel retries,
     js_gt retries js_zero = true ->
     connector 0%nat <> Established ->
     (1 <= fuel)%nat ->
     exists rest,
       stdout (trace (snd (connectDB_js toString envConfig connector fuel
                             retries boot))) =
       ("Retrying connection... ("
          ++ toString (js_add (js_sub MAX_RETRIES_number retries) js_one)
          ++ "/5)")%string
         :: rest) /\
  (forall fuel r,
     0 < r <= 2 ^ 53 ->
     connector 0%nat <> Established ->
     (1 <= fuel)%nat ->
     exists rest,
       stdout (trace (snd (connectDB_js toString envConfig connector fuel
                             (of_Z r) boot))) =
       ("Retrying connection... (" ++ template_number (5 - r + 1) ++ "/5)")%string
         :: rest) /\
  (forall fuel retries,
     js_gt retries js_zero = false ->
     connector 0%nat <> Established ->
     stdout (trace (snd (connectDB_js toString envConfig connector fuel
                           retries boot))) = []) /\
  (forall retries, js_le retries js_zero = true -> js_gt retries js_zero = false) /\
  (forall r, - 2 ^ 53 <= r <= 0 ->
     js_le (of_Z r) js_zero = true /\ js_gt (of_Z r) js_zero = false) /\
  (forall fuel,
     connector 0%nat <> Established ->
     (1 <= fuel)%nat ->
     (exists rest,
        stdout (trace (snd (connectDB_js toString envConfig connector fuel
                              (of_Z 2) boot))) =
        "Retrying connection... (4/5)"%string :: rest) /\
     (exists rest,
        stdout (trace (snd (connectDB_js toString envConfig connector fuel
                              (of_Z 6) boot))) =
        "Retrying connection... (0/5)"%string :: rest) /\
     (exists rest,
        stdout (trace (snd (connectDB_js toString envConfig connector fuel
                              (of_Z 7) boot))) =
        "Retrying connection... (-1/5)"%string :: rest)).
Proof.
  intros Hr.
  assert (Hfive : toString MAX_RETRIES_number = "5"%string).
  { unfold MAX_RETRIES_number, MAX_RETRIES. rewrite Hr by lia. reflexivity. }
  assert (Hline : forall fuel retries,
            js_gt retries js_zero = true ->
            connector 0%nat <> Established ->
            (1 <= fuel)%nat ->
            exists rest,
              stdout (trace (snd (connectDB_js toString envConfig connector
                                    fuel retries boot))) =
              retrying_line_js toString retries :: rest).
  { intros fuel retries Hgt Hc Hfuel. apply refused_reason in Hc.
    destruct fuel as [| fuel]; [lia |].
    rewrite (connectDB_js_retry _ _ _ fuel retries boot _ Hc Hgt).
    destruct (connectDB_js_extends toString envConfig connector fuel
                (js_sub retries js_one)
                (after boot (retry_round_js toString envConfig retries
                               (reason_of (connector 0%nat)))))
      as (t & Ht & _).
    exists (stdout t). rewrite Ht.
    unfold after, retry_round_js. cbn [trace boot app].
    change (?a :: ?b :: ?c :: ?d :: t) with ([a; b; c; d] ++ t).
    rewrite stdout_app. reflexivity. }
  assert (Hfirst : forall fuel r,
            0 < r <= 2 ^ 53 ->
            connector 0%nat <> Established ->
            (1 <= fuel)%nat ->
            exists rest,
              stdout (trace (snd (connectDB_js toString envConfig connector
                                    fuel (of_Z r) boot))) =
              retrying_line r :: rest).
  { intros fuel r Hpos Hc Hfuel.
    assert (Hgt : js_gt (of_Z r) js_zero = true).
    { rewrite js_gt_zero_integer by lia. apply Z.ltb_lt. lia. }
    destruct (Hline fuel (of_Z r) Hgt Hc Hfuel) as (rest & ->).
    exists rest. now rewrite retrying_line_js_integer by (auto; lia). }
  split; [exact Hfive |].
  split; [| split; [| split; [| split; [| split; [| split]]]]].
  - intros fuel retries line Hin.
    destruct (connectDB_js_boot_run toString envConfig connector fuel retries)
      as (j & tail & c & Hrun & _ & _ & Hend).
    rewrite Hrun in Hin. cbn [snd trace] in Hin.
    rewrite stdout_app, retry_rounds_js_stdout in Hin.
    apply in_app_or in Hin as [Hin | Hin].
    + right. apply in_map_iff in Hin as (k & <- & _).
      exists (js_add (js_sub MAX_RETRIES_number (js_countdown k retries))
                js_one).
      unfold retrying_line_js. rewrite Hfive. reflexivity.
    + destruct Hend as [(_ & _ & ->) | [(_ & _ & _ & ->) | (_ & _ & _ & _ & ->)]];
        cbn in Hin.
      * contradiction.
      * destruct Hin as [<- | []]. now left.
      * contradiction.
  - intros fuel retries Hgt Hc Hfuel.
    destruct (Hline fuel retries Hgt Hc Hfuel) as (rest & ->).
    exists rest. unfold retrying_line_js. rewrite Hfive. reflexivity.
  - intros fuel r Hpos Hc Hfuel.
    destruct (Hfirst fuel r Hpos Hc Hfuel) as (rest & ->).
    exists rest. reflexivity.
  - intros fuel retries Hgt Hc. apply refused_reason in Hc.
    destruct fuel as [| fuel]; [reflexivity |].
    rewrite (connectDB_js_exhausted _ _ _ fuel retries boot _ Hc Hgt).
    reflexivity.
  - exact js_le_zero_not_gt.
  - intros r Hneg.
    assert (Hgt : js_gt (of_Z r) js_zero = false).
    { rewrite js_gt_zero_integer by lia. apply Z.ltb_ge. lia. }
    split; [| exact Hgt].
    destruct (js_not_gt_zero_cases _ Hgt) as [Hle | Hnan]; [exact Hle |].
    exfalso. pose proof (to_Z_of_Z r ltac:(lia)) as Hto.
    rewrite Hnan in Hto. discriminate Hto.
  - intros fuel Hc Hfuel. repeat split.
    + destruct (Hfirst fuel 2 ltac:(lia) Hc Hfuel) as (rest & ->).
      now exists rest.
    + destruct (Hfirst fuel 6 ltac:(lia) Hc Hfuel) as (rest & ->).
      now exists rest.
    + destruct (Hfirst fuel 7 ltac:(lia) Hc Hfuel) as (rest & ->).
      now exists rest.
Qed.

Lemma connectDB_js_retry_line_total_witness :
  (exists rest,
     stdout (trace (snd (connectDB_js integer_toString sample_env unreachable 1
                           (of_Z 7) boot))) =
     "Retrying connection... (-1/5)"%string :: rest) /\
  stdout (trace (snd (connectDB_js integer_toString sample_env unreachable 1
                        (of_Z 0) boot))) = [].
Proof.
  destruct (connectDB_js_retry_line_total integer_toString sample_env
              unreachable integer_toString_renders)
    as (_ & _ & _ & _ & Hnone & _ & Hle & Hex).
  split.
  - apply (Hex 1%nat); [discriminate | lia].
  - apply Hnone; [| discriminate].
    apply Hle. lia.
Defined.

(** ** Further properties on numbers *)

(** X3.  On integer counters up to 2^53 failed attempts use up the counter
    one by one: when the first [a] attempts fail, [0 <= b] and
    [a + b <= 2^53], [connectDB (a + b)] completes as [connectDB b] does
    against the outcomes from attempt [a + 1] on, after [a] more attempts
    and [a] more delays of [RETRY_DELAY]. *)
Theorem connectDB_js_failures_consume_budget
  (toString : number -> string) (envConfig : EnvConfig)
  (connector : nat -> connect_result) (a : nat) (b : Z) (fuel : nat) :
  renders_integers toString ->
  0 <= b ->
  Z.of_nat a + b <= 2 ^ 53 ->
  (a + Z.to_nat b < fuel)%nat ->
  (forall k, (k < a)%nat -> connector k <> Established) ->
  let whole :=
    connectDB_js toString envConfig connector fuel (of_Z (Z.of_nat a + b)) boot in
  let rest :=
    connectDB_js toString envConfig (fun j => connector (a + j)%nat) fuel
      (of_Z b) boot in
  fst whole = fst rest /\
  attempts (trace (snd whole)) = (a + attempts (trace (snd rest)))%nat /\
  delays (trace (snd whole)) =
    repeat RETRY_DELAY a ++ delays (trace (snd rest)).
Proof.
  intros Hr Hb Hab Hfuel Hfail whole rest. subst whole rest.
  rewrite !connectDB_js_integer by (auto; lia).
  destruct (connectDB_failures_consume_budget envConfig connector a b Hb Hfail)
    as (Hc & Ha & Hd).
  cbn [fst snd]. rewrite Hc. auto.
Qed.

Lemma connectDB_js_failures_consume_budget_witness :
  fst (connectDB_js integer_toString sample_env (reachable_at 3) 6
         (of_Z (Z.of_nat 2 + 3)) boot) =
  fst (connectDB_js integer_toString sample_env
         (fun j => reachable_at 3 (2 + j)%nat) 6 (of_Z 3) boot).
Proof.
  apply (connectDB_js_failures_consume_budget integer_toString sample_env
           (reachable_at 3) 2 3 6).
  - exact integer_toString_renders.
  - lia.
  - cbn; lia.
  - cbn; lia.
  - intros k Hk. destruct k as [| [| k]]; cbn; [discriminate | discriminate | lia].
Defined.

(** X5.  For every number passed as counter, the lines a run writes with
    [console.log] are, in order, one retry line per retried attempt, each
    built by line 17 from the counter as lowered so far, and then the
    success line if and only if the run has returned.  For an integer
    counter between -2^53 and 2^53 the retry lines are numbered
    consecutively from [MAX_RETRIES - retries + 1], each out of 5. *)
Theorem connectDB_js_console_log_lines
  (toString : number -> string) (envConfig : EnvConfig)
  (connector : nat -> connect_result) (fuel : nat) (retries : number) :
  let run := connectDB_js toString envConfig connector fuel retries boot in
  let t := trace (snd run) in
  let retried := match fst run with
                 | Normal None => attempts t
                 | _ => (attempts t - 1)%nat
                 end in
  stdout t =
    map (fun k =>
           ("Retrying connection... ("
              ++ toString (js_add (js_sub MAX_RETRIES_number
                                     (js_countdown k retries)) js_one)
              ++ "/" ++ toString MAX_RETRIES_number ++ ")")%string)
        (seq 0 retried)
    ++ match fst run with
       | Normal (Some _) => ["Connected to MongoDB"%string]
       | _ => []
       end /\
  (forall z,
     renders_integers toString ->
     retries = of_Z z ->
     - 2 ^ 53 <= z <= 2 ^ 53 ->
     (Z.to_nat z < fuel)%nat ->
     stdout t =
       map (fun m =>
              ("Retrying connection... ("
                 ++ template_number (MAX_RETRIES - z + 1 + Z.of_nat m)
                 ++ "/5)")%string)
           (seq 0 (attempts t - 1))
       ++ match fst run with
          | Normal (Some _) => ["Connected to MongoDB"%string]
          | _ => []
          end).
Proof.
  intros run t retried. split.
  - subst retried t run.
    destruct (connectDB_js_boot_run toString envConfig connector fuel retries)
      as (j & tail & c & Hrun & _ & _ & Hend).
    rewrite Hrun. cbn [fst snd trace].
    rewrite stdout_app, retry_rounds_js_stdout.
    destruct Hend as [(_ & -> & ->) | [(_ & _ & -> & ->) | (_ & _ & _ & -> & ->)]].
    + destruct (retry_rounds_js_cut toString envConfig connector j retries)
        as (-> & _ & _). reflexivity.
    + destruct (retry_rounds_js_connected toString envConfig connector j
                  retries) as (-> & _ & _).
      replace (S j - 1)%nat with j by lia. reflexivity.
    + destruct (retry_rounds_js_fatal toString envConfig connector j retries
                  (reason_of (connector j))) as (-> & _ & _).
      replace (S j - 1)%nat with j by lia. reflexivity.
  - intros z Hr -> Hz Hfuel. subst t run.
    rewrite connectDB_js_integer by (auto; lia).
    cbn [fst snd].
    rewrite (connectDB_console_log_lines envConfig connector z).
    f_equal.
    destruct (fst (connectDB envConfig connector z boot)) as [[] | e | code];
      reflexivity.
Qed.

Lemma connectDB_js_console_log_lines_witness :
  stdout (trace (snd (connectDB_js integer_toString sample_env (reachable_at 3)
                        6 (of_Z 5) boot))) =
  ["Retrying connection... (1/5)"%string;
   "Retrying connection... (2/5)"%string;
   "Connected to MongoDB"%string].
Proof.
  rewrite (proj2 (connectDB_js_console_log_lines integer_toString sample_env
                    (reachable_at 3) 6 (of_Z 5)) 5).
  - vm_compute. reflexivity.
  - exact integer_toString_renders.
  - reflexivity.
  - lia.
  - cbn; lia.
Defined.

(** X8.  The delays of a finished run add up to [RETRY_DELAY] times the
    number of attempts but one.  For an integer counter between -2^53 and
    2^53 that is at most [RETRY_DELAY * retries] (zero for a counter below
    zero): the default call waits 25 seconds at most. *)
Theorem connectDB_js_total_delay_bound
  (toString : number -> string) (envConfig : EnvConfig)
  (connector : nat -> connect_result) (fuel : nat) (retries : number) :
  let run := connectDB_js toString envConfig connector fuel retries boot in
  let t := trace (snd run) in
  (fst run <> Normal None ->
   total_delay t = RETRY_DELAY * (Z.of_nat (attempts t) - 1)) /\
  (forall z,
     renders_integers toString ->
     retries = of_Z z ->
     - 2 ^ 53 <= z <= 2 ^ 53 ->
     (Z.to_nat z < fuel)%nat ->
     fst run <> Normal None /\
     0 <= total_delay t <= RETRY_DELAY * Z.max 0 z) /\
  (renders_integers toString ->
   (5 < fuel)%nat ->
   total_delay (trace (snd (connectDB_js_default toString envConfig connector
                              fuel boot))) <= 25000).
Proof.
  intros run t.
  assert (Hint : forall z f,
            renders_integers toString ->
            - 2 ^ 53 <= z <= 2 ^ 53 ->
            (Z.to_nat z < f)%nat ->
            fst (connectDB_js toString envConfig connector f (of_Z z) boot)
              <> Normal None /\
            0 <= total_delay
                   (trace (snd (connectDB_js toString envConfig connector f
                                  (of_Z z) boot)))
              <= RETRY_DELAY * Z.max 0 z).
  { intros z f Hr Hz Hf. rewrite connectDB_js_integer by (auto; lia).
    cbn [fst snd]. split.
    - destruct (fst (connectDB envConfig connector z boot)) as [[] | e | code];
        discriminate.
    - apply (connectDB_total_delay_bound envConfig connector z). }
  split; [| split].
  - intros Hdone. subst t run.
    destruct (connectDB_js_boot_run toString envConfig connector fuel retries)
      as (j & tail & c & Hrun & _ & _ & Hend).
    rewrite Hrun in *. cbn [fst snd trace] in *. unfold total_delay.
    destruct Hend as [(_ & -> & _) | [(_ & _ & _ & ->) | (_ & _ & _ & _ & ->)]].
    + congruence.
    + destruct (retry_rounds_js_connected toString envConfig connector j
                  retries) as (-> & -> & _).
      rewrite total_delay_repeat. f_equal. lia.
    + destruct (retry_rounds_js_fatal toString envConfig connector j retries
                  (reason_of (connector j))) as (-> & -> & _).
      rewrite total_delay_repeat. f_equal. lia.
  - intros z Hr -> Hz Hfuel. subst t run. apply Hint; assumption.
  - intros Hr Hfuel. unfold connectDB_js_default, MAX_RETRIES_number.
    destruct (Hint MAX_RETRIES fuel Hr) as (_ & _ & Hle).
    + unfold MAX_RETRIES. lia.
    + unfold MAX_RETRIES. lia.
    + unfold MAX_RETRIES, RETRY_DELAY in *. lia.
Qed.

Lemma connectDB_js_total_delay_bound_witness :
  total_delay (trace (snd (connectDB_js_default integer_toString sample_env
                             unreachable 6 boot))) <= 25000.
Proof.
  apply (proj2 (proj2 (connectDB_js_total_delay_bound integer_toString
                         sample_env unreachable 6 MAX_RETRIES_number))).
  - exact integer_toString_renders.
  - lia.
Defined.

(** X9.  On integer counters from 1 to 2^53 the retry line identifies
    the counter: two such counters with the same retry line are equal.
    Hence, for an integer counter between -2^53 and 2^53, no line is
    written twice to [console.log] in a run. *)
Theorem connectDB_js_log_lines_distinct
  (toString : number -> string) (envConfig : EnvConfig)
  (connector : nat -> connect_result) (fuel : nat) (retries : Z) :
  renders_integers toString ->
  - 2 ^ 53 <= retries <= 2 ^ 53 ->
  (Z.to_nat retries < fuel)%nat ->
  (forall r r',
     1 <= r <= 2 ^ 53 ->
     1 <= r' <= 2 ^ 53 ->
     retrying_line_js toString (of_Z r) = retrying_line_js toString (of_Z r') ->
     r = r') /\
  NoDup (stdout (trace (snd (connectDB_js toString envConfig connector fuel
                               (of_Z retries) boot)))).
Proof.
  intros Hr Hz Hfuel. split.
  - intros r r' Hrange Hrange' Heq.
    rewrite !retrying_line_js_integer in Heq by (auto; lia).
    now apply retrying_line_inj.
  - rewrite connectDB_js_integer by (auto; lia). cbn [snd].
    apply (connectDB_log_lines_distinct envConfig connector retries).
Qed.

Lemma connectDB_js_log_lines_distinct_witness :
  NoDup (stdout (trace (snd (connectDB_js integer_toString sample_env
                               unreachable 6 (of_Z 5) boot)))).
Proof.
  apply (connectDB_js_log_lines_distinct integer_toString sample_env
           unreachable 6 5).
  - exact integer_toString_renders.
  - lia.
  - cbn; lia.
Defined.

(** X10.  For an integer counter between -2^53 and 2^53, [connectDB]
    returns exactly when one of the first [retries + 1] outcomes of the
    connector (the first one alone, for a counter below zero) is a
    success, and stops the process with status 1 exactly when all of them
    are failures. *)
Theorem connectDB_js_returns_iff_some_success
  (toString : number -> string) (envConfig : EnvConfig)
  (connector : nat -> connect_result) (fuel : nat) (retries : Z) :
  renders_integers toString ->
  - 2 ^ 53 <= retries <= 2 ^ 53 ->
  (Z.to_nat retries < fuel)%nat ->
  (fst (connectDB_js toString envConfig connector fuel (of_Z retries) boot)
     = Normal (Some tt) <->
   exists k, (k <= Z.to_nat retries)%nat /\ connector k = Established) /\
  (fst (connectDB_js toString envConfig connector fuel (of_Z retries) boot)
     = Halt 1 <->
   forall k, (k <= Z.to_nat retries)%nat -> connector k <> Established).
Proof.
  intros Hr Hz Hfuel.
  rewrite connectDB_js_integer by (auto; lia). cbn [fst].
  rewrite settled_returns, settled_halts.
  apply connectDB_returns_iff_some_success.
Qed.

Lemma connectDB_js_returns_iff_some_success_witness :
  fst (connectDB_js integer_toString sample_env (reachable_at 3) 6 (of_Z 5) boot)
    = Normal (Some tt).
Proof.
  apply (proj1 (connectDB_js_returns_iff_some_success integer_toString
                  sample_env (reachable_at 3) 6 5
                  integer_toString_renders ltac:(lia) ltac:(cbn; lia))).
  exists 2%nat. split; [cbn; lia | reflexivity].
Defined.

(** X11.  Whatever integer counter from 1 to 2^53 is passed, a run that
    uses it all up announces its last retry as (5/5): the last line of
    [console.log] is "Retrying connection... (5/5)". *)
Theorem connectDB_js_last_retry_line
  (toString : number -> string) (envConfig : EnvConfig)
  (connector : nat -> connect_result) (fuel : nat) (retries : Z) :
  renders_integers toString ->
  1 <= retries <= 2 ^ 53 ->
  (Z.to_nat retries < fuel)%nat ->
  fst (connectDB_js toString envConfig connector fuel (of_Z retries) boot)
    = Halt 1 ->
  last (stdout (trace (snd (connectDB_js toString envConfig connector fuel
                              (of_Z retries) boot))))
       ""%string
  = "Retrying connection... (5/5)"%string.
Proof.
  intros Hr Hz Hfuel.
  rewrite connectDB_js_integer by (auto; lia). cbn [fst snd].
  rewrite settled_halts. intros Hhalt.
  apply connectDB_last_retry_line; [lia | exact Hhalt].
Qed.

Lemma connectDB_js_last_retry_line_witness :
  last (stdout (trace (snd (connectDB_js integer_toString sample_env
                              unreachable 3 (of_Z 2) boot))))
       ""%string
  = "Retrying connection... (5/5)"%string.
Proof.
  apply (connectDB_js_last_retry_line integer_toString sample_env unreachable
           3 2).
  - exact integer_toString_renders.
  - lia.
  - cbn; lia.
  - vm_compute. reflexivity.
Defined.
